(** * Real-estate deal analyser: mortgage, expense and return services,
      and the purchase-price optimiser.

    The TypeScript sources are embedded as Rocq functions, one per method,
    with the services as records of their constructor arguments.

    A JavaScript [number] is modelled by [number] below: an exact rational,
    or one of the three IEEE special values.  Arithmetic on finite values is
    exact: no rounding, no overflow, and a single zero that divides like
    [+0].  The special values follow IEEE 754, so that a division by zero
    propagates through the pipeline the way it does at run time.  Decimal
    literals of the source ([0.032], [1e-6], ...) stand for the decimal
    fraction they denote.  The amortization term is a whole number of years,
    which keeps the exponent of the payment formula an integer.

    The theorems keep the operations in the order in which the source
    applies them.  The closed forms of Section [Regular], which rest on exact
    arithmetic, only serve to decide sample deals, at prices where the tests
    of the classification are decided with a margin. *)

From Stdlib Require Import Ascii String ZArith QArith Qpower Qcanon Qround List Bool Lia Lqa.
Import ListNotations.


(** ** Numbers *)

Inductive number : Type :=
| Fin (q : Qc)
| PInf
| NInf
| NaN.

Declare Scope js_scope.
Delimit Scope js_scope with js.
Bind Scope js_scope with number.

Definition int (z : Z) : number := Fin (Q2Qc (inject_Z z)).
Definition dec (n : Z) (d : positive) : number := Fin (Q2Qc (n # d)).

Definition Qc_is_zero (q : Qc) : bool := Qc_eq_bool q 0.
Definition Qc_pos (q : Qc) : bool := if Qclt_le_dec 0 q then true else false.
Definition Qc_leb (a b : Qc) : bool := if Qclt_le_dec b a then false else true.
Definition Qc_ltb (a b : Qc) : bool := if Qclt_le_dec a b then true else false.

(** The infinity with the sign of [q] (no infinity for zero). *)
Definition signed_inf (q : Qc) : number :=
  if Qc_is_zero q then NaN else if Qc_pos q then PInf else NInf.

Definition nneg (a : number) : number :=
  match a with
  | Fin q => Fin (- q)
  | PInf => NInf
  | NInf => PInf
  | NaN => NaN
  end.

Definition nadd (a b : number) : number :=
  match a, b with
  | NaN, _ | _, NaN => NaN
  | Fin x, Fin y => Fin (x + y)
  | PInf, NInf | NInf, PInf => NaN
  | PInf, _ | _, PInf => PInf
  | NInf, _ | _, NInf => NInf
  end.

Definition nsub (a b : number) : number := nadd a (nneg b).

Definition nmul (a b : number) : number :=
  match a, b with
  | NaN, _ | _, NaN => NaN
  | Fin x, Fin y => Fin (x * y)
  | Fin x, PInf | PInf, Fin x => signed_inf x
  | Fin x, NInf | NInf, Fin x => nneg (signed_inf x)
  | PInf, PInf | NInf, NInf => PInf
  | PInf, NInf | NInf, PInf => NInf
  end.

Definition ndiv (a b : number) : number :=
  match a, b with
  | NaN, _ | _, NaN => NaN
  | Fin x, Fin y => if Qc_is_zero y then signed_inf x else Fin (x / y)
  | Fin _, PInf | Fin _, NInf => Fin 0
  | PInf, Fin y => if Qc_is_zero y then PInf else signed_inf y
  | NInf, Fin y => if Qc_is_zero y then NInf else nneg (signed_inf y)
  | _, _ => NaN
  end.

(** [q ^ n], reduced once at the end. *)
Definition Qc_pow (q : Qc) (n : nat) : Qc := Q2Qc (Qpower q (Z.of_nat n)).

(** [a ** e] for an integer exponent. *)
Definition npow (a : number) (e : Z) : number :=
  match e with
  | Z0 => Fin 1
  | Zpos p =>
      match a with
      | Fin q => Fin (Qc_pow q (Pos.to_nat p))
      | PInf => PInf
      | NInf => if Z.odd e then NInf else PInf
      | NaN => NaN
      end
  | Zneg p =>
      match a with
      | Fin q => if Qc_is_zero q then PInf else Fin (/ Qc_pow q (Pos.to_nat p))
      | PInf | NInf => Fin 0
      | NaN => NaN
      end
  end.

Definition nabs (a : number) : number :=
  match a with
  | Fin q => Fin (if Qc_pos q then q else - q)
  | PInf | NInf => PInf
  | NaN => NaN
  end.

(** [Math.floor]. *)
Definition nfloor (a : number) : number :=
  match a with
  | Fin q => int (Qfloor q)
  | _ => a
  end.

(** [a <= b], [a < b], [a >= b], [a > b]: false as soon as one side is NaN. *)
Definition nle (a b : number) : bool :=
  match a, b with
  | NaN, _ | _, NaN => false
  | Fin x, Fin y => Qc_leb x y
  | NInf, _ | _, PInf => true
  | _, _ => false
  end.

Definition nlt (a b : number) : bool :=
  match a, b with
  | NaN, _ | _, NaN => false
  | Fin x, Fin y => Qc_ltb x y
  | PInf, _ | _, NInf => false
  | _, _ => true
  end.

Definition nge (a b : number) : bool := nle b a.
Definition ngt (a b : number) : bool := nlt b a.

(** [a === b] on numbers. *)
Definition nseq (a b : number) : bool :=
  match a, b with
  | Fin x, Fin y => Qc_eq_bool x y
  | PInf, PInf | NInf, NInf => true
  | _, _ => false
  end.

(** Truthiness of a number: every number but zero and NaN. *)
Definition truthy (a : number) : bool :=
  match a with
  | Fin q => negb (Qc_is_zero q)
  | NaN => false
  | _ => true
  end.

Definition is_finite (a : number) : bool :=
  match a with Fin _ => true | _ => false end.

Infix "+" := nadd : js_scope.
Infix "-" := nsub : js_scope.
Infix "*" := nmul : js_scope.
Infix "/" := ndiv : js_scope.
Notation "- x" := (nneg x) : js_scope.
Infix "**" := npow (at level 30, right associativity) : js_scope.
Infix ">=?" := nge (at level 70) : js_scope.
Infix "<=?" := nle (at level 70) : js_scope.
Infix "<?" := nlt (at level 70) : js_scope.
Infix ">?" := ngt (at level 70) : js_scope.
Infix "===" := nseq (at level 70) : js_scope.

(** ** Arrays of numbers *)

(** [arr.reduce((acc, v) => acc + v, 0)]. *)
Definition sum (arr : list number) : number := fold_left nadd arr (int 0).

(** [for (let i = from; i < from + count; i++) s = body(i, s)]. *)
Fixpoint for_range {S : Type} (from count : nat) (body : nat -> S -> S) (s : S) : S :=
  match count with
  | O => s
  | Datatypes.S c => for_range (Datatypes.S from) c body (body from s)
  end.

(** [arr[i] += v].  Past the end JavaScript extends the array: the new slot
    holds [undefined + v], which is NaN, and the skipped slots are holes. *)
Fixpoint add_at (i : nat) (v : number) (arr : list number) : list number :=
  match i, arr with
  | O, x :: rest => (x + v)%js :: rest
  | O, [] => [NaN]
  | Datatypes.S j, x :: rest => x :: add_at j v rest
  | Datatypes.S j, [] => NaN :: add_at j v []
  end.

(** ** Deal terms and constants *)

Record RealEstateDeal : Type := {
  salePrice : number;
  downpaymentPercentage : number;
  annualMortgageInterestRate : number;
  (** whole years, so that the exponent of the payment formula is an integer *)
  mortgageAmortization : Z;
  propertyTaxRate : number;
  monthlyHoaDues : number;
  vacancyRate : number;
  monthlyRent : number;
  landlordPaidUtilities : bool;
  needsPropertyManagement : bool;
  unitCount : number;
  newConstruction : bool;
  closingEquity : option number
}.

Module FINANCIAL_CONSTANTS.
Definition CLOSING_COST_RATE : number := dec 32 1000.
Definition PMI_RATE : number := dec 98 10000.
Definition INVESTMENT_YEAR_TIME_HORIZON : nat := 5.
Module APPRECIATION_RATES.
Definition SFH : number := dec 4 100.
Definition RENT : number := dec 25 1000.
End APPRECIATION_RATES.
Module MAINTENANCE_RATES.
Definition NEW_CONSTRUCTION : number := dec 15 10000.
Definition EXISTING_CONSTRUCTION : number := dec 54 10000.
End MAINTENANCE_RATES.
Module MANAGEMENT_RATES.
Definition SINGLE_FAMILY : number := dec 1 10.
Definition MULTI_FAMILY : number := dec 8 100.
End MANAGEMENT_RATES.
Definition UNIT_UTILITY_COST : number := int 355.
Definition CAPEX_RATE : number := dec 1 100.
Definition BASE_INSURANCE_RATE : number := dec 44 10000.
Definition CONDO_INSURANCE_RATE : number := int 450.
Definition MINIMUM_MONTHLY_CASHFLOW_PER_DOOR : number := int 100.
Definition MINIMUM_ROI : number := dec 25 100.
Definition MINIMUM_COC_ROI : number := dec 5 100.
End FINANCIAL_CONSTANTS.
Import FINANCIAL_CONSTANTS.

Local Open Scope js_scope.

(** ** MortgageCalculationService *)

Record MortgageCalculationService : Type := {
  m_deal : RealEstateDeal;
  m_purchasePrice : number
}.

Definition getDownPayment (this : MortgageCalculationService) : number :=
  m_purchasePrice this * (downpaymentPercentage (m_deal this) / int 100).

(** [this.deal.closingEquity || 0] *)
Definition closingEquity_or_0 (d : RealEstateDeal) : number :=
  match closingEquity d with
  | Some e => if truthy e then e else int 0
  | None => int 0
  end.

Definition getLoanAmount (this : MortgageCalculationService) : number :=
  m_purchasePrice this - getDownPayment this - closingEquity_or_0 (m_deal this).

(** The local constant [PMI] of [getMonthlyMortgagePayment]. *)
Definition PMI (this : MortgageCalculationService) : number :=
  if downpaymentPercentage (m_deal this) >=? int 20
  then int 0
  else (m_purchasePrice this * PMI_RATE) / int 12.

Definition getMonthlyMortgagePayment (this : MortgageCalculationService) : number :=
  let n := (mortgageAmortization (m_deal this) * 12)%Z in
  let monthlyMortgageInterestRate :=
    annualMortgageInterestRate (m_deal this) / int 100 / int 12 in
  PMI this +
  (getLoanAmount this * monthlyMortgageInterestRate) /
    (int 1 - (int 1 + monthlyMortgageInterestRate) ** (- n)%Z).

(** ** ExpenseCalculationService *)

Record ExpenseCalculationService : Type := {
  e_deal : RealEstateDeal;
  e_purchasePrice : number;
  e_mortgageService : MortgageCalculationService
}.

Definition getClosingCosts (this : ExpenseCalculationService) : number :=
  CLOSING_COST_RATE * e_purchasePrice this.

Definition getAnnualCapEx (this : ExpenseCalculationService) : number :=
  if monthlyHoaDues (e_deal this) >? int 0
  then int 0
  else e_purchasePrice this * CAPEX_RATE.

Definition getAnnualMaintenance (this : ExpenseCalculationService) : number :=
  let rate :=
    if newConstruction (e_deal this)
    then MAINTENANCE_RATES.NEW_CONSTRUCTION
    else MAINTENANCE_RATES.EXISTING_CONSTRUCTION in
  e_purchasePrice this * rate.

Definition getAnnualInsurance (this : ExpenseCalculationService) : number :=
  if truthy (monthlyHoaDues (e_deal this))
  then CONDO_INSURANCE_RATE
  else e_purchasePrice this * BASE_INSURANCE_RATE.

Definition getAnnualManagement (this : ExpenseCalculationService) : number :=
  if negb (needsPropertyManagement (e_deal this)) then int 0
  else
    monthlyRent (e_deal this) * int 12 *
    (if unitCount (e_deal this) >? int 4
     then MANAGEMENT_RATES.MULTI_FAMILY
     else MANAGEMENT_RATES.SINGLE_FAMILY).

Definition getAnnualUtilities (this : ExpenseCalculationService) : number :=
  if negb (landlordPaidUtilities (e_deal this)) then int 0
  else unitCount (e_deal this) * UNIT_UTILITY_COST * int 12.

Record AnnualExpenses : Type := {
  annualMortgagePayment : number;
  annualHoaDues : number;
  annualUtilities : number;
  annualPropertyManagement : number;
  annualCapEx : number;
  annualMaintenanceCosts : number;
  annualPropertyTax : number;
  annualPropertyInsurance : number;
  annualVacancyCosts : number;
  totalAnnualExpenses : number
}.

Definition getAnnualExpenses (this : ExpenseCalculationService) : AnnualExpenses :=
  let annualMortgagePayment :=
    getMonthlyMortgagePayment (e_mortgageService this) * int 12 in
  let annualHoaDues := monthlyHoaDues (e_deal this) * int 12 in
  let annualUtilities := getAnnualUtilities this in
  let annualPropertyManagement := getAnnualManagement this in
  let annualCapEx := getAnnualCapEx this in
  let annualMaintenanceCosts := getAnnualMaintenance this in
  let annualPropertyTax :=
    e_purchasePrice this * (propertyTaxRate (e_deal this) / int 100) in
  let annualPropertyInsurance := getAnnualInsurance this in
  let annualVacancyCosts :=
    monthlyRent (e_deal this) * int 12 * (vacancyRate (e_deal this) / int 100) in
  {| annualMortgagePayment := annualMortgagePayment;
     annualHoaDues := annualHoaDues;
     annualUtilities := annualUtilities;
     annualPropertyManagement := annualPropertyManagement;
     annualCapEx := annualCapEx;
     annualMaintenanceCosts := annualMaintenanceCosts;
     annualPropertyTax := annualPropertyTax;
     annualPropertyInsurance := annualPropertyInsurance;
     annualVacancyCosts := annualVacancyCosts;
     (* Object.values(annualExpenses).reduce((acc, v) => acc + v, 0) *)
     totalAnnualExpenses :=
       sum [annualMortgagePayment; annualHoaDues; annualUtilities;
            annualPropertyManagement; annualCapEx; annualMaintenanceCosts;
            annualPropertyTax; annualPropertyInsurance; annualVacancyCosts] |}.

(** ** ReturnCalculationService *)

Record ReturnCalculationService : Type := {
  r_deal : RealEstateDeal;
  r_purchasePrice : number;
  r_mortgageService : MortgageCalculationService;
  r_expenseService : ExpenseCalculationService
}.

Definition getArrAvg (arr : list number) : number :=
  sum arr / int (Z.of_nat (length arr)).

(** The net present value computed in the body of [calculateIRR]:
    [cashflows.reduce((acc, cashflow, index) => acc + cashflow / (1 + mid) ** index, 0)]. *)
Fixpoint npv_from (index : nat) (mid : number) (cashflows : list number) (acc : number)
  : number :=
  match cashflows with
  | [] => acc
  | cashflow :: rest =>
      npv_from (S index) mid rest (acc + cashflow / (int 1 + mid) ** Z.of_nat index)
  end.

Definition npv (mid : number) (cashflows : list number) : number :=
  npv_from 0 mid cashflows (int 0).

Definition maxIterations : nat := 1000.
Definition tolerance : number := dec 1 1000000.

(** The loop of [calculateIRR], with [count] iterations left; [None] is the
    [throw] after the loop. *)
Fixpoint calculateIRR_loop (count : nat) (cashflows : list number) (low high : number)
  : option number :=
  match count with
  | O => None
  | S count' =>
      let mid := (low + high) / int 2 in
      let npv := npv mid cashflows in
      if nabs npv <? tolerance then Some mid
      else if npv <? int 0
           then calculateIRR_loop count' cashflows low mid
           else calculateIRR_loop count' cashflows mid high
  end.

Definition calculateIRR (cashflows : list number) : option number :=
  calculateIRR_loop maxIterations cashflows (int 0) (int 1).

Record YearMetrics : Type := {
  annualRent : number;
  cashFlow : number;
  principalPaid : number;
  appreciation : number;
  remainingBalance : number;
  totalPrincipalPaid : number;
  totalAppreciation : number
}.

Definition getInitialMetrics (this : ReturnCalculationService) : YearMetrics :=
  {| annualRent := monthlyRent (r_deal this) * int 12;
     cashFlow := int 0;
     principalPaid := int 0;
     appreciation := int 0;
     remainingBalance := getLoanAmount (r_mortgageService this);
     totalPrincipalPaid := int 0;
     totalAppreciation := int 0 |}.

Definition calculatePrincipalReduction
    (this : ReturnCalculationService) (remainingLoanBalance : number) : number :=
  let annualInterestPayment :=
    remainingLoanBalance * (annualMortgageInterestRate (r_deal this) / int 100) in
  getMonthlyMortgagePayment (r_mortgageService this) * int 12 - annualInterestPayment.

Definition calculateAppreciation
    (this : ReturnCalculationService) (appreciationYear : nat) : number :=
  if (appreciationYear <? 1)%nat then int 0
  else if unitCount (r_deal this) >? int 1 then
    let rentIncreaseRate := int 1 + APPRECIATION_RATES.RENT in
    let newRent :=
      for_range 1 appreciationYear
        (fun _ newRent => newRent * rentIncreaseRate) (monthlyRent (r_deal this)) in
    let prevRent := newRent / rentIncreaseRate in
    let prevValue := (prevRent * r_purchasePrice this) / monthlyRent (r_deal this) in
    (newRent * prevValue) / prevRent - prevValue
  else
    let '(prevValue, currValue) :=
      for_range 1 appreciationYear
        (fun _ '(prevValue, currValue) =>
           (currValue, currValue * (int 1 + APPRECIATION_RATES.SFH)))
        (r_purchasePrice this, r_purchasePrice this) in
    currValue - prevValue.

(** [{ ...this.deal, monthlyRent: rent }] *)
Definition with_monthlyRent (d : RealEstateDeal) (rent : number) : RealEstateDeal :=
  {| salePrice := salePrice d;
     downpaymentPercentage := downpaymentPercentage d;
     annualMortgageInterestRate := annualMortgageInterestRate d;
     mortgageAmortization := mortgageAmortization d;
     propertyTaxRate := propertyTaxRate d;
     monthlyHoaDues := monthlyHoaDues d;
     vacancyRate := vacancyRate d;
     monthlyRent := rent;
     landlordPaidUtilities := landlordPaidUtilities d;
     needsPropertyManagement := needsPropertyManagement d;
     unitCount := unitCount d;
     newConstruction := newConstruction d;
     closingEquity := closingEquity d |}.

Definition calculateYearlyMetrics
    (this : ReturnCalculationService) (year : nat) (prevMetrics : YearMetrics)
  : YearMetrics :=
  let modifiedDeal := with_monthlyRent (r_deal this) (annualRent prevMetrics / int 12) in
  let expenseService :=
    {| e_deal := modifiedDeal;
       e_purchasePrice := r_purchasePrice this;
       e_mortgageService := r_mortgageService this |} in
  let cashFlow :=
    annualRent prevMetrics - totalAnnualExpenses (getAnnualExpenses expenseService) in
  let annualRent := annualRent prevMetrics * (int 1 + APPRECIATION_RATES.RENT) in
  let principalPaid := calculatePrincipalReduction this (remainingBalance prevMetrics) in
  let appreciation := calculateAppreciation this year in
  {| annualRent := annualRent;
     cashFlow := cashFlow;
     principalPaid := principalPaid;
     appreciation := appreciation;
     remainingBalance := remainingBalance prevMetrics - principalPaid;
     totalPrincipalPaid := totalPrincipalPaid prevMetrics + principalPaid;
     totalAppreciation := totalAppreciation prevMetrics + appreciation |}.

Definition getInitialInvestment (this : ReturnCalculationService) : number :=
  getClosingCosts (r_expenseService this) + getDownPayment (r_mortgageService this).

Record Cashflows : Type := {
  cashflows : list number;
  trueCashflows : list number;
  avgCashflow : number
}.

(** The state of the loop of [getCashflows]: the array being filled, the
    metrics of the last year computed and the gained equity. *)
Definition getCashflows_body (this : ReturnCalculationService) (year : nat)
    (s : list number * YearMetrics * number) : list number * YearMetrics * number :=
  let '(cashflows, metrics, _) := s in
  let metrics := calculateYearlyMetrics this year metrics in
  (cashflows ++ [cashFlow metrics], metrics,
   totalPrincipalPaid metrics + totalAppreciation metrics).

Definition getCashflows (this : ReturnCalculationService) : Cashflows :=
  let years := INVESTMENT_YEAR_TIME_HORIZON in
  let cashflows := [- getInitialInvestment this] in
  let '(cashflows, _, gainedEquity) :=
    for_range 1 years (getCashflows_body this)
      (cashflows, getInitialMetrics this, int 0) in
  (* slice(1) copies: the later update of [cashflows] does not reach it *)
  let trueCashflows := tl cashflows in
  let cashflows := add_at years gainedEquity cashflows in
  {| cashflows := cashflows;
     trueCashflows := trueCashflows;
     avgCashflow := getArrAvg trueCashflows |}.

Record Returns : Type := {
  yields : list number;
  amounts : list number;
  avgYield : number;
  avgAmount : number
}.

Definition getReturns_body (this : ReturnCalculationService)
    (initialInvestment : number) (year : nat)
    (s : list number * list number * YearMetrics) : list number * list number * YearMetrics :=
  let '(yields, amounts, metrics) := s in
  let metrics := calculateYearlyMetrics this year metrics in
  let annualReturn := cashFlow metrics + principalPaid metrics + appreciation metrics in
  (yields ++ [annualReturn / initialInvestment], amounts ++ [annualReturn], metrics).

Definition getReturns (this : ReturnCalculationService) : Returns :=
  let years := INVESTMENT_YEAR_TIME_HORIZON in
  let initialInvestment := getInitialInvestment this in
  let '(yields, amounts, _) :=
    for_range 1 years (getReturns_body this initialInvestment)
      ([], [], getInitialMetrics this) in
  {| yields := yields;
     amounts := amounts;
     avgYield := getArrAvg yields;
     avgAmount := getArrAvg amounts |}.

Definition getAvgCOCROI (this : ReturnCalculationService) : number :=
  avgCashflow (getCashflows this) / getInitialInvestment this.

(** The body of [getIRR] once the cashflows are known:
    [try { ... } catch (error) { return 0 }] around [calculateIRR], with the
    test that rejects [undefined] (which [calculateIRR] cannot return) and
    NaN. *)
Definition getIRR_on (cashflows : list number) : number :=
  match calculateIRR cashflows with
  | Some irr =>
      match irr with
      | NaN => int 0
      | _ => irr
      end
  | None => int 0
  end.

Definition getIRR (this : ReturnCalculationService) : number :=
  getIRR_on (cashflows (getCashflows this)).

(** ** RealEstateDealAnalyser *)

Record Services : Type := {
  mortgageService : MortgageCalculationService;
  expenseService : ExpenseCalculationService;
  returnService : ReturnCalculationService
}.

Definition initializeServices (input : RealEstateDeal) (purchasePrice : number) : Services :=
  let mortgageService := {| m_deal := input; m_purchasePrice := purchasePrice |} in
  let expenseService :=
    {| e_deal := input; e_purchasePrice := purchasePrice;
       e_mortgageService := mortgageService |} in
  let returnService :=
    {| r_deal := input; r_purchasePrice := purchasePrice;
       r_mortgageService := mortgageService; r_expenseService := expenseService |} in
  {| mortgageService := mortgageService;
     expenseService := expenseService;
     returnService := returnService |}.

(** ['max' | 'good' | 'bad'] *)
Inductive DealCriteria : Type := crit_max | crit_good | crit_bad.

Definition DealCriteria_eqb (a b : DealCriteria) : bool :=
  match a, b with
  | crit_max, crit_max | crit_good, crit_good | crit_bad, crit_bad => true
  | _, _ => false
  end.

Definition minimumCashflow (input : RealEstateDeal) : number :=
  MINIMUM_MONTHLY_CASHFLOW_PER_DOOR * unitCount input * int 12.

Definition checkDealCriteria (input : RealEstateDeal) (s : Services) : DealCriteria :=
  let avgYield := avgYield (getReturns (returnService s)) in
  let avgCashflow := avgCashflow (getCashflows (returnService s)) in
  let avgCOCROI := getAvgCOCROI (returnService s) in
  let minimumROI := MINIMUM_ROI in
  let minimumCashflow := minimumCashflow input in
  let minimumCOCROI := MINIMUM_COC_ROI in
  if (avgYield >=? minimumROI) && (avgCashflow >=? minimumCashflow)
     && (avgCOCROI >=? minimumCOCROI)
  then if nfloor avgCashflow === minimumCashflow then crit_max else crit_good
  else crit_bad.

(** The classification of a purchase price: the services are rebuilt at
    that price, then the criteria are checked. *)
Definition classify_at (input : RealEstateDeal) (purchasePrice : number) : DealCriteria :=
  checkDealCriteria input (initializeServices input purchasePrice).

(** In [adjustToMaxPurchasePrice] every price tried is an integer: 1, its
    doubles, and floors of midpoints. *)
Definition classify (input : RealEstateDeal) (purchasePrice : Z) : DealCriteria :=
  classify_at input (int purchasePrice).

(** First loop of [adjustToMaxPurchasePrice]: the price doubles until the
    criteria fail.  The loop need not end; [None] when [fuel] runs out. *)
Fixpoint expand (fuel : nat) (input : RealEstateDeal) (purchasePrice : Z) : option Z :=
  match fuel with
  | O => None
  | S fuel' =>
      if DealCriteria_eqb (classify input purchasePrice) crit_bad
      then Some purchasePrice
      else expand fuel' input (purchasePrice * 2)%Z
  end.

(** Second loop: binary search between [left] and [right]; the result is
    the final value of [right].  [steps] bounds the iterations. *)
Fixpoint search (steps : nat) (input : RealEstateDeal) (left right : Z) : Z :=
  match steps with
  | O => right
  | S steps' =>
      if (left <=? right)%Z then
        let middle := ((left + right) / 2)%Z in
        match classify input middle with
        | crit_bad => search steps' input left (middle - 1)%Z
        | crit_max => right
        | crit_good => search steps' input (middle + 1)%Z right
        end
      else right
  end.

(** The purchase price left by [adjustToMaxPurchasePrice]. *)
Definition adjustToMaxPurchasePrice (fuel : nat) (input : RealEstateDeal) : option Z :=
  match expand fuel input 1 with
  | None => None
  | Some upper => Some (search (Z.to_nat (upper + 2)) input 0 upper)
  end.

(** ** Auxiliary definitions used in the statements *)

(** Equality of numbers is decidable; closed equations are settled by
    evaluation. *)
Definition number_eqb (a b : number) : bool :=
  match a, b with
  | Fin x, Fin y => Qc_eq_bool x y
  | PInf, PInf | NInf, NInf | NaN, NaN => true
  | _, _ => false
  end.

(** The level payment added to [PMI] in [getMonthlyMortgagePayment]. *)
Definition levelPayment (this : MortgageCalculationService) : number :=
  let r := annualMortgageInterestRate (m_deal this) / int 100 / int 12 in
  (getLoanAmount this * r) /
  (int 1 - (int 1 + r) ** (- (mortgageAmortization (m_deal this) * 12))%Z).

(** The projection chain: the metrics after [k] years, the initial metrics
    for [k = 0].  The loops of [getCashflows] and [getReturns] walk it. *)
Fixpoint metrics_after (this : ReturnCalculationService) (k : nat) : YearMetrics :=
  match k with
  | O => getInitialMetrics this
  | S k' => calculateYearlyMetrics this (S k') (metrics_after this k')
  end.

(** The balance invariant of the projection chain after [k] years: what is
    left of the loan plus what was paid of it is the loan. *)
Definition balance_invariant (this : ReturnCalculationService) (k : nat) : Prop :=
  remainingBalance (metrics_after this k) + totalPrincipalPaid (metrics_after this k) =
  getLoanAmount (r_mortgageService this).

(** A deal in the shape of the one the repository analyses, on a two-year
    term to keep the payment's denominator small. *)
Definition sample_deal : RealEstateDeal :=
  {| salePrice := int 372000;
     downpaymentPercentage := int 20;
     annualMortgageInterestRate := dec 492 100;
     mortgageAmortization := 2;
     propertyTaxRate := int 1;
     monthlyHoaDues := int 0;
     vacancyRate := dec 26 10;
     monthlyRent := int 4400;
     landlordPaidUtilities := true;
     needsPropertyManagement := false;
     unitCount := int 2;
     newConstruction := false;
     closingEquity := None |}.

(** The same deal at an interest rate of zero. *)
Definition zero_rate_deal : RealEstateDeal :=
  {| salePrice := int 372000;
     downpaymentPercentage := int 20;
     annualMortgageInterestRate := int 0;
     mortgageAmortization := 25;
     propertyTaxRate := int 1;
     monthlyHoaDues := int 0;
     vacancyRate := dec 26 10;
     monthlyRent := int 4400;
     landlordPaidUtilities := true;
     needsPropertyManagement := false;
     unitCount := int 2;
     newConstruction := false;
     closingEquity := None |}.

(** The bracket [(low, high)] of the bisection of [calculateIRR] after [i]
    iterations that did not return, its midpoint, and the test that ends the
    loop. *)
Fixpoint bracket (cashflows : list number) (i : nat) : number * number :=
  match i with
  | O => (int 0, int 1)
  | S i' =>
      let '(low, high) := bracket cashflows i' in
      let mid := (low + high) / int 2 in
      if npv mid cashflows <? int 0 then (low, mid) else (mid, high)
  end.

Definition midpoint (cashflows : list number) (i : nat) : number :=
  (fst (bracket cashflows i) + snd (bracket cashflows i)) / int 2.

Definition converged (cashflows : list number) (i : nat) : bool :=
  nabs (npv (midpoint cashflows i) cashflows) <? dec 1 1000000.

(** ** Closed forms of the pipeline for a regular deal *)

(** The rational held by a finite number. *)
Definition fin_part (a : number) : Qc :=
  match a with
  | Fin q => q
  | _ => 0%Qc
  end.

(** A regular deal: finite terms, a down payment between 0 and 100 per
    cent, a positive interest rate and term, a tax rate and a unit count that
    are not negative, a positive rent and no closing equity. *)
Definition regular_deal (d : RealEstateDeal) : bool :=
  (int 0 <=? downpaymentPercentage d) && (downpaymentPercentage d <=? int 100)
  && is_finite (annualMortgageInterestRate d) && (int 0 <? annualMortgageInterestRate d)
  && (0 <? mortgageAmortization d)%Z
  && is_finite (propertyTaxRate d) && (int 0 <=? propertyTaxRate d)
  && is_finite (monthlyHoaDues d)
  && is_finite (vacancyRate d)
  && is_finite (monthlyRent d) && (int 0 <? monthlyRent d)
  && is_finite (unitCount d) && (int 0 <=? unitCount d)
  && match closingEquity d with None => true | Some _ => false end.

Section Coefficients.

Variable d : RealEstateDeal.

(** [annualMortgageInterestRate / 100] and [... / 100 / 12]. *)
Definition annualRateFraction : Qc :=
  fin_part (annualMortgageInterestRate d) / Q2Qc (inject_Z 100).

Definition monthlyRate : Qc := annualRateFraction / Q2Qc (inject_Z 12).

Definition termMonths : nat := Z.to_nat (mortgageAmortization d * 12).

(** [1 - (1 + r) ** -n] *)
Definition annuityDenominator : Qc :=
  Q2Qc (inject_Z 1) - / Qc_pow (Q2Qc (inject_Z 1) + monthlyRate) termMonths.

(** Per unit of price: mortgage insurance, loan, monthly payment. *)
Definition pmiCoeff : Qc :=
  if downpaymentPercentage d >=? int 20 then 0
  else Q2Qc (98 # 10000) / Q2Qc (inject_Z 12).

Definition loanCoeff : Qc :=
  1 - fin_part (downpaymentPercentage d) / Q2Qc (inject_Z 100).

Definition paymentCoeff : Qc :=
  pmiCoeff + loanCoeff * monthlyRate / annuityDenominator.

(** Initial investment per unit of price. *)
Definition investmentCoeff : Qc :=
  Q2Qc (32 # 1000) + fin_part (downpaymentPercentage d) / Q2Qc (inject_Z 100).

(** Annual expenses: the part in proportion to the price, the part in
    proportion to the annual rent, and the fixed part. *)
Definition priceExpenseCoeff : Qc :=
  paymentCoeff * Q2Qc (inject_Z 12)
  + (if monthlyHoaDues d >? int 0 then 0 else Q2Qc (1 # 100))
  + (if newConstruction d then Q2Qc (15 # 10000) else Q2Qc (54 # 10000))
  + fin_part (propertyTaxRate d) / Q2Qc (inject_Z 100)
  + (if truthy (monthlyHoaDues d) then 0 else Q2Qc (44 # 10000)).

Definition rentExpenseCoeff : Qc :=
  (if needsPropertyManagement d
   then (if unitCount d >? int 4 then Q2Qc (8 # 100) else Q2Qc (1 # 10))
   else 0)
  + fin_part (vacancyRate d) / Q2Qc (inject_Z 100).

Definition fixedExpenses : Qc :=
  fin_part (monthlyHoaDues d) * Q2Qc (inject_Z 12)
  + (if landlordPaidUtilities d
     then fin_part (unitCount d) * Q2Qc (inject_Z 355) * Q2Qc (inject_Z 12)
     else 0)
  + (if truthy (monthlyHoaDues d) then Q2Qc (inject_Z 450) else 0).

(** The annual rent after [k] years. *)
Definition rentAt (k : nat) : Qc :=
  fin_part (monthlyRent d) * Q2Qc (inject_Z 12)
  * (Q2Qc (inject_Z 1) + Q2Qc (25 # 1000)) ^ k.

(** The cashflow of year [k + 1] at price 0. *)
Definition cashflowFixed (k : nat) : Qc :=
  rentAt k - (fixedExpenses + rentExpenseCoeff * rentAt k).

(** Per unit of price: the balance after [k] years, the principal paid in
    year [k + 1], the appreciation of year [k + 1]. *)
Fixpoint balanceCoeff (k : nat) : Qc :=
  match k with
  | O => loanCoeff
  | S k' =>
      balanceCoeff k'
      - (paymentCoeff * Q2Qc (inject_Z 12) - balanceCoeff k' * annualRateFraction)
  end.

Definition principalCoeff (k : nat) : Qc :=
  paymentCoeff * Q2Qc (inject_Z 12) - balanceCoeff k * annualRateFraction.

Definition growthFactor : Qc :=
  if unitCount d >? int 1
  then Q2Qc (inject_Z 1) + Q2Qc (25 # 1000)
  else Q2Qc (inject_Z 1) + Q2Qc (4 # 100).

Definition appreciationCoeff (k : nat) : Qc :=
  growthFactor ^ S k - growthFactor ^ k.

(** Sums over the five years of the horizon. *)
Definition totalCashflowFixed : Qc :=
  cashflowFixed 0 + cashflowFixed 1 + cashflowFixed 2 + cashflowFixed 3 + cashflowFixed 4.

Definition totalGainCoeff : Qc :=
  (principalCoeff 0 + appreciationCoeff 0) + (principalCoeff 1 + appreciationCoeff 1)
  + (principalCoeff 2 + appreciationCoeff 2) + (principalCoeff 3 + appreciationCoeff 3)
  + (principalCoeff 4 + appreciationCoeff 4).

End Coefficients.

(** The three criteria at the price [q], cleared of their divisions. *)
Definition acceptable_at (d : RealEstateDeal) (q : Qc) : Prop :=
  (Q2Qc (125 # 100) * (investmentCoeff d * q) <=
   totalCashflowFixed d + (totalGainCoeff d - Q2Qc (inject_Z 5) * priceExpenseCoeff d) * q)%Qc /\
  (Q2Qc (inject_Z 5) * fin_part (minimumCashflow d) <=
   totalCashflowFixed d - Q2Qc (inject_Z 5) * priceExpenseCoeff d * q)%Qc /\
  (Q2Qc (25 # 100) * (investmentCoeff d * q) <=
   totalCashflowFixed d - Q2Qc (inject_Z 5) * priceExpenseCoeff d * q)%Qc.

(** The annual return of year [k] of the chain. *)
Definition annualReturn_at (this : ReturnCalculationService) (k : nat) : number :=
  cashFlow (metrics_after this k) + principalPaid (metrics_after this k) +
  appreciation (metrics_after this k).

(** The return service of the deal [d] at the finite price [q]. *)
Definition serviceAt (d : RealEstateDeal) (q : Qc) : ReturnCalculationService :=
  returnService (initializeServices d (Fin q)).

(** The sample deal with a monthly rent of 100: the rent does not even pay
    the utilities. *)
Definition low_rent_deal : RealEstateDeal :=
  {| salePrice := int 372000;
     downpaymentPercentage := int 20;
     annualMortgageInterestRate := dec 492 100;
     mortgageAmortization := 2;
     propertyTaxRate := int 1;
     monthlyHoaDues := int 0;
     vacancyRate := dec 26 10;
     monthlyRent := int 100;
     landlordPaidUtilities := true;
     needsPropertyManagement := false;
     unitCount := int 2;
     newConstruction := false;
     closingEquity := None |}.

(** The deal analysed at the end of [RealEstateDealAnalyser.ts]. *)
Definition inputs : RealEstateDeal :=
  {| salePrice := int 372000;
     downpaymentPercentage := int 20;
     annualMortgageInterestRate := dec 492 100;
     mortgageAmortization := 25;
     propertyTaxRate := int 1;
     monthlyHoaDues := int 0;
     vacancyRate := dec 26 10;
     monthlyRent := int 4400;
     landlordPaidUtilities := true;
     needsPropertyManagement := false;
     unitCount := int 2;
     newConstruction := false;
     closingEquity := None |}.

(** ** ReturnCalculationService: the itemised series *)

Record PrincipalReductions : Type := {
  principalReductions : list number;
  avgPrincipalReduction : number;
  (** the field [totalPrincipalPaid] of the object returned *)
  pr_totalPrincipalPaid : number
}.

Definition getPrincipalReductions_body (this : ReturnCalculationService) (year : nat)
    (s : list number * YearMetrics) : list number * YearMetrics :=
  let '(principalReductions, metrics) := s in
  let metrics := calculateYearlyMetrics this year metrics in
  (principalReductions ++ [principalPaid metrics], metrics).

Definition getPrincipalReductions (this : ReturnCalculationService) : PrincipalReductions :=
  let years := INVESTMENT_YEAR_TIME_HORIZON in
  let '(principalReductions, metrics) :=
    for_range 1 years (getPrincipalReductions_body this) ([], getInitialMetrics this) in
  {| principalReductions := principalReductions;
     avgPrincipalReduction := getArrAvg principalReductions;
     pr_totalPrincipalPaid := totalPrincipalPaid metrics |}.

Record Appreciations : Type := {
  appreciations : list number;
  avgAppreciation : number;
  (** the field [totalPrincipalPaid] of the object returned *)
  ap_totalPrincipalPaid : number
}.

Definition getAppreciations_body (this : ReturnCalculationService) (year : nat)
    (s : list number * YearMetrics) : list number * YearMetrics :=
  let '(appreciations, metrics) := s in
  let metrics := calculateYearlyMetrics this year metrics in
  (appreciations ++ [appreciation metrics], metrics).

Definition getAppreciations (this : ReturnCalculationService) : Appreciations :=
  let years := INVESTMENT_YEAR_TIME_HORIZON in
  let '(appreciations, metrics) :=
    for_range 1 years (getAppreciations_body this) ([], getInitialMetrics this) in
  {| appreciations := appreciations;
     avgAppreciation := getArrAvg appreciations;
     ap_totalPrincipalPaid := totalPrincipalPaid metrics |}.

(** ** Sample data for the search *)

(** A one-unit deal on a one-year term at 12 per cent, rented 110 a month. *)
Definition small_deal : RealEstateDeal :=
  {| salePrice := int 100000;
     downpaymentPercentage := int 20;
     annualMortgageInterestRate := int 12;
     mortgageAmortization := 1;
     propertyTaxRate := int 1;
     monthlyHoaDues := int 0;
     vacancyRate := int 0;
     monthlyRent := int 110;
     landlordPaidUtilities := false;
     needsPropertyManagement := false;
     unitCount := int 1;
     newConstruction := false;
     closingEquity := None |}.


(** ** RealEstateDealBuilder *)

(** The builder holds a reference to a deal object, which its setters
    mutate in place and which [build] hands out as it is.  Deal objects live
    in a store; a reference is an index into it, and allocation appends. *)
Definition Store : Type := list RealEstateDeal.

Definition alloc (s : Store) (d : RealEstateDeal) : Store * nat := (s ++ [d], length s).

Definition deref (s : Store) (r : nat) : option RealEstateDeal := nth_error s r.

(** An assignment to a field of the object at reference [r]; [f] is the
    change of the object. *)
Fixpoint assign (s : Store) (r : nat) (f : RealEstateDeal -> RealEstateDeal) : Store :=
  match s, r with
  | [], _ => []
  | d :: rest, O => f d :: rest
  | d :: rest, S r' => d :: assign rest r' f
  end.

(** The object literal of the constructor. *)
Definition default_deal : RealEstateDeal :=
  {| salePrice := int 0;
     downpaymentPercentage := int 20;
     annualMortgageInterestRate := int 0;
     mortgageAmortization := 25;
     propertyTaxRate := int 1;
     monthlyHoaDues := int 0;
     vacancyRate := dec 25 10;
     monthlyRent := int 0;
     landlordPaidUtilities := false;
     needsPropertyManagement := false;
     unitCount := int 1;
     newConstruction := false;
     closingEquity := None |}.

(** A [Partial<RealEstateDeal>]: each key is absent or holds a value. *)
Record PartialDeal : Type := {
  p_salePrice : option number;
  p_downpaymentPercentage : option number;
  p_annualMortgageInterestRate : option number;
  p_mortgageAmortization : option Z;
  p_propertyTaxRate : option number;
  p_monthlyHoaDues : option number;
  p_vacancyRate : option number;
  p_monthlyRent : option number;
  p_landlordPaidUtilities : option bool;
  p_needsPropertyManagement : option bool;
  p_unitCount : option number;
  p_newConstruction : option bool;
  p_closingEquity : option number
}.

Definition or_else {A : Type} (o : option A) (a : A) : A :=
  match o with
  | Some x => x
  | None => a
  end.

(** [{ ...deal, ...partialDeal }] *)
Definition spread (d : RealEstateDeal) (p : PartialDeal) : RealEstateDeal :=
  {| salePrice := or_else (p_salePrice p) (salePrice d);
     downpaymentPercentage := or_else (p_downpaymentPercentage p) (downpaymentPercentage d);
     annualMortgageInterestRate :=
       or_else (p_annualMortgageInterestRate p) (annualMortgageInterestRate d);
     mortgageAmortization := or_else (p_mortgageAmortization p) (mortgageAmortization d);
     propertyTaxRate := or_else (p_propertyTaxRate p) (propertyTaxRate d);
     monthlyHoaDues := or_else (p_monthlyHoaDues p) (monthlyHoaDues d);
     vacancyRate := or_else (p_vacancyRate p) (vacancyRate d);
     monthlyRent := or_else (p_monthlyRent p) (monthlyRent d);
     landlordPaidUtilities := or_else (p_landlordPaidUtilities p) (landlordPaidUtilities d);
     needsPropertyManagement :=
       or_else (p_needsPropertyManagement p) (needsPropertyManagement d);
     unitCount := or_else (p_unitCount p) (unitCount d);
     newConstruction := or_else (p_newConstruction p) (newConstruction d);
     closingEquity :=
       match p_closingEquity p with
       | Some e => Some e
       | None => closingEquity d
       end |}.

(** The changes of one field made by the setters. *)
Definition with_salePrice (d : RealEstateDeal) (price : number) : RealEstateDeal :=
  {| salePrice := price;
     downpaymentPercentage := downpaymentPercentage d;
     annualMortgageInterestRate := annualMortgageInterestRate d;
     mortgageAmortization := mortgageAmortization d;
     propertyTaxRate := propertyTaxRate d;
     monthlyHoaDues := monthlyHoaDues d;
     vacancyRate := vacancyRate d;
     monthlyRent := monthlyRent d;
     landlordPaidUtilities := landlordPaidUtilities d;
     needsPropertyManagement := needsPropertyManagement d;
     unitCount := unitCount d;
     newConstruction := newConstruction d;
     closingEquity := closingEquity d |}.

Definition with_downpaymentPercentage (d : RealEstateDeal) (percentage : number)
  : RealEstateDeal :=
  {| salePrice := salePrice d;
     downpaymentPercentage := percentage;
     annualMortgageInterestRate := annualMortgageInterestRate d;
     mortgageAmortization := mortgageAmortization d;
     propertyTaxRate := propertyTaxRate d;
     monthlyHoaDues := monthlyHoaDues d;
     vacancyRate := vacancyRate d;
     monthlyRent := monthlyRent d;
     landlordPaidUtilities := landlordPaidUtilities d;
     needsPropertyManagement := needsPropertyManagement d;
     unitCount := unitCount d;
     newConstruction := newConstruction d;
     closingEquity := closingEquity d |}.

Definition with_annualMortgageInterestRate (d : RealEstateDeal) (rate : number)
  : RealEstateDeal :=
  {| salePrice := salePrice d;
     downpaymentPercentage := downpaymentPercentage d;
     annualMortgageInterestRate := rate;
     mortgageAmortization := mortgageAmortization d;
     propertyTaxRate := propertyTaxRate d;
     monthlyHoaDues := monthlyHoaDues d;
     vacancyRate := vacancyRate d;
     monthlyRent := monthlyRent d;
     landlordPaidUtilities := landlordPaidUtilities d;
     needsPropertyManagement := needsPropertyManagement d;
     unitCount := unitCount d;
     newConstruction := newConstruction d;
     closingEquity := closingEquity d |}.

Definition with_mortgageAmortization (d : RealEstateDeal) (years : Z) : RealEstateDeal :=
  {| salePrice := salePrice d;
     downpaymentPercentage := downpaymentPercentage d;
     annualMortgageInterestRate := annualMortgageInterestRate d;
     mortgageAmortization := years;
     propertyTaxRate := propertyTaxRate d;
     monthlyHoaDues := monthlyHoaDues d;
     vacancyRate := vacancyRate d;
     monthlyRent := monthlyRent d;
     landlordPaidUtilities := landlordPaidUtilities d;
     needsPropertyManagement := needsPropertyManagement d;
     unitCount := unitCount d;
     newConstruction := newConstruction d;
     closingEquity := closingEquity d |}.

Definition with_propertyTaxRate (d : RealEstateDeal) (rate : number) : RealEstateDeal :=
  {| salePrice := salePrice d;
     downpaymentPercentage := downpaymentPercentage d;
     annualMortgageInterestRate := annualMortgageInterestRate d;
     mortgageAmortization := mortgageAmortization d;
     propertyTaxRate := rate;
     monthlyHoaDues := monthlyHoaDues d;
     vacancyRate := vacancyRate d;
     monthlyRent := monthlyRent d;
     landlordPaidUtilities := landlordPaidUtilities d;
     needsPropertyManagement := needsPropertyManagement d;
     unitCount := unitCount d;
     newConstruction := newConstruction d;
     closingEquity := closingEquity d |}.

Definition with_monthlyHoaDues (d : RealEstateDeal) (dues : number) : RealEstateDeal :=
  {| salePrice := salePrice d;
     downpaymentPercentage := downpaymentPercentage d;
     annualMortgageInterestRate := annualMortgageInterestRate d;
     mortgageAmortization := mortgageAmortization d;
     propertyTaxRate := propertyTaxRate d;
     monthlyHoaDues := dues;
     vacancyRate := vacancyRate d;
     monthlyRent := monthlyRent d;
     landlordPaidUtilities := landlordPaidUtilities d;
     needsPropertyManagement := needsPropertyManagement d;
     unitCount := unitCount d;
     newConstruction := newConstruction d;
     closingEquity := closingEquity d |}.

Definition with_vacancyRate (d : RealEstateDeal) (rate : number) : RealEstateDeal :=
  {| salePrice := salePrice d;
     downpaymentPercentage := downpaymentPercentage d;
     annualMortgageInterestRate := annualMortgageInterestRate d;
     mortgageAmortization := mortgageAmortization d;
     propertyTaxRate := propertyTaxRate d;
     monthlyHoaDues := monthlyHoaDues d;
     vacancyRate := rate;
     monthlyRent := monthlyRent d;
     landlordPaidUtilities := landlordPaidUtilities d;
     needsPropertyManagement := needsPropertyManagement d;
     unitCount := unitCount d;
     newConstruction := newConstruction d;
     closingEquity := closingEquity d |}.

Definition with_landlordPaidUtilities (d : RealEstateDeal) (paid : bool) : RealEstateDeal :=
  {| salePrice := salePrice d;
     downpaymentPercentage := downpaymentPercentage d;
     annualMortgageInterestRate := annualMortgageInterestRate d;
     mortgageAmortization := mortgageAmortization d;
     propertyTaxRate := propertyTaxRate d;
     monthlyHoaDues := monthlyHoaDues d;
     vacancyRate := vacancyRate d;
     monthlyRent := monthlyRent d;
     landlordPaidUtilities := paid;
     needsPropertyManagement := needsPropertyManagement d;
     unitCount := unitCount d;
     newConstruction := newConstruction d;
     closingEquity := closingEquity d |}.

Definition with_needsPropertyManagement (d : RealEstateDeal) (needs : bool)
  : RealEstateDeal :=
  {| salePrice := salePrice d;
     downpaymentPercentage := downpaymentPercentage d;
     annualMortgageInterestRate := annualMortgageInterestRate d;
     mortgageAmortization := mortgageAmortization d;
     propertyTaxRate := propertyTaxRate d;
     monthlyHoaDues := monthlyHoaDues d;
     vacancyRate := vacancyRate d;
     monthlyRent := monthlyRent d;
     landlordPaidUtilities := landlordPaidUtilities d;
     needsPropertyManagement := needs;
     unitCount := unitCount d;
     newConstruction := newConstruction d;
     closingEquity := closingEquity d |}.

Definition with_unitCount (d : RealEstateDeal) (count : number) : RealEstateDeal :=
  {| salePrice := salePrice d;
     downpaymentPercentage := downpaymentPercentage d;
     annualMortgageInterestRate := annualMortgageInterestRate d;
     mortgageAmortization := mortgageAmortization d;
     propertyTaxRate := propertyTaxRate d;
     monthlyHoaDues := monthlyHoaDues d;
     vacancyRate := vacancyRate d;
     monthlyRent := monthlyRent d;
     landlordPaidUtilities := landlordPaidUtilities d;
     needsPropertyManagement := needsPropertyManagement d;
     unitCount := count;
     newConstruction := newConstruction d;
     closingEquity := closingEquity d |}.

Definition with_newConstruction (d : RealEstateDeal) (isNew : bool) : RealEstateDeal :=
  {| salePrice := salePrice d;
     downpaymentPercentage := downpaymentPercentage d;
     annualMortgageInterestRate := annualMortgageInterestRate d;
     mortgageAmortization := mortgageAmortization d;
     propertyTaxRate := propertyTaxRate d;
     monthlyHoaDues := monthlyHoaDues d;
     vacancyRate := vacancyRate d;
     monthlyRent := monthlyRent d;
     landlordPaidUtilities := landlordPaidUtilities d;
     needsPropertyManagement := needsPropertyManagement d;
     unitCount := unitCount d;
     newConstruction := isNew;
     closingEquity := closingEquity d |}.

Definition with_closingEquity (d : RealEstateDeal) (equity : number) : RealEstateDeal :=
  {| salePrice := salePrice d;
     downpaymentPercentage := downpaymentPercentage d;
     annualMortgageInterestRate := annualMortgageInterestRate d;
     mortgageAmortization := mortgageAmortization d;
     propertyTaxRate := propertyTaxRate d;
     monthlyHoaDues := monthlyHoaDues d;
     vacancyRate := vacancyRate d;
     monthlyRent := monthlyRent d;
     landlordPaidUtilities := landlordPaidUtilities d;
     needsPropertyManagement := needsPropertyManagement d;
     unitCount := unitCount d;
     newConstruction := newConstruction d;
     closingEquity := Some equity |}.

(** The builder object: its field [deal] is a reference into the store. *)
Record RealEstateDealBuilder : Type := {
  b_deal : nat
}.

(** [new RealEstateDealBuilder()] *)
Definition new_RealEstateDealBuilder (s : Store) : Store * RealEstateDealBuilder :=
  let '(s', r) := alloc s default_deal in
  (s', {| b_deal := r |}).

(** [setDeal] replaces the object by a fresh one; the other setters assign
    one field of the object in place.  All return [this]. *)
Definition setDeal (partialDeal : PartialDeal) (s : Store) (this : RealEstateDealBuilder)
  : Store * RealEstateDealBuilder :=
  match deref s (b_deal this) with
  | Some d =>
      let '(s', r) := alloc s (spread d partialDeal) in
      (s', {| b_deal := r |})
  | None => (s, this)
  end.

Definition setSalePrice (price : number) (s : Store) (this : RealEstateDealBuilder)
  : Store * RealEstateDealBuilder :=
  (assign s (b_deal this) (fun d => with_salePrice d price), this).

Definition setDownpaymentPercentage (percentage : number) (s : Store)
    (this : RealEstateDealBuilder) : Store * RealEstateDealBuilder :=
  (assign s (b_deal this) (fun d => with_downpaymentPercentage d percentage), this).

Definition setAnnualMortgageInterestRate (rate : number) (s : Store)
    (this : RealEstateDealBuilder) : Store * RealEstateDealBuilder :=
  (assign s (b_deal this) (fun d => with_annualMortgageInterestRate d rate), this).

Definition setMortgageAmortization (years : Z) (s : Store) (this : RealEstateDealBuilder)
  : Store * RealEstateDealBuilder :=
  (assign s (b_deal this) (fun d => with_mortgageAmortization d years), this).

Definition setPropertyTaxRate (rate : number) (s : Store) (this : RealEstateDealBuilder)
  : Store * RealEstateDealBuilder :=
  (assign s (b_deal this) (fun d => with_propertyTaxRate d rate), this).

Definition setMonthlyHoaDues (dues : number) (s : Store) (this : RealEstateDealBuilder)
  : Store * RealEstateDealBuilder :=
  (assign s (b_deal this) (fun d => with_monthlyHoaDues d dues), this).

Definition setVacancyRate (rate : number) (s : Store) (this : RealEstateDealBuilder)
  : Store * RealEstateDealBuilder :=
  (assign s (b_deal this) (fun d => with_vacancyRate d rate), this).

Definition setMonthlyRent (rent : number) (s : Store) (this : RealEstateDealBuilder)
  : Store * RealEstateDealBuilder :=
  (assign s (b_deal this) (fun d => with_monthlyRent d rent), this).

Definition setLandlordPaidUtilities (paid : bool) (s : Store) (this : RealEstateDealBuilder)
  : Store * RealEstateDealBuilder :=
  (assign s (b_deal this) (fun d => with_landlordPaidUtilities d paid), this).

Definition setNeedsPropertyManagement (needs : bool) (s : Store)
    (this : RealEstateDealBuilder) : Store * RealEstateDealBuilder :=
  (assign s (b_deal this) (fun d => with_needsPropertyManagement d needs), this).

Definition setUnitCount (count : number) (s : Store) (this : RealEstateDealBuilder)
  : Store * RealEstateDealBuilder :=
  (assign s (b_deal this) (fun d => with_unitCount d count), this).

Definition setNewConstruction (isNew : bool) (s : Store) (this : RealEstateDealBuilder)
  : Store * RealEstateDealBuilder :=
  (assign s (b_deal this) (fun d => with_newConstruction d isNew), this).

Definition setClosingEquity (equity : number) (s : Store) (this : RealEstateDealBuilder)
  : Store * RealEstateDealBuilder :=
  (assign s (b_deal this) (fun d => with_closingEquity d equity), this).

(** [build] returns the reference itself, not a copy of the object. *)
Definition build (this : RealEstateDealBuilder) : nat := b_deal this.

(** A call of one of the methods that return [this]. *)
Inductive Call : Type :=
| call_setDeal (partialDeal : PartialDeal)
| call_setSalePrice (price : number)
| call_setDownpaymentPercentage (percentage : number)
| call_setAnnualMortgageInterestRate (rate : number)
| call_setMortgageAmortization (years : Z)
| call_setPropertyTaxRate (rate : number)
| call_setMonthlyHoaDues (dues : number)
| call_setVacancyRate (rate : number)
| call_setMonthlyRent (rent : number)
| call_setLandlordPaidUtilities (paid : bool)
| call_setNeedsPropertyManagement (needs : bool)
| call_setUnitCount (count : number)
| call_setNewConstruction (isNew : bool)
| call_setClosingEquity (equity : number).

Definition call (c : Call) (s : Store) (this : RealEstateDealBuilder)
  : Store * RealEstateDealBuilder :=
  match c with
  | call_setDeal p => setDeal p s this
  | call_setSalePrice v => setSalePrice v s this
  | call_setDownpaymentPercentage v => setDownpaymentPercentage v s this
  | call_setAnnualMortgageInterestRate v => setAnnualMortgageInterestRate v s this
  | call_setMortgageAmortization v => setMortgageAmortization v s this
  | call_setPropertyTaxRate v => setPropertyTaxRate v s this
  | call_setMonthlyHoaDues v => setMonthlyHoaDues v s this
  | call_setVacancyRate v => setVacancyRate v s this
  | call_setMonthlyRent v => setMonthlyRent v s this
  | call_setLandlordPaidUtilities v => setLandlordPaidUtilities v s this
  | call_setNeedsPropertyManagement v => setNeedsPropertyManagement v s this
  | call_setUnitCount v => setUnitCount v s this
  | call_setNewConstruction v => setNewConstruction v s this
  | call_setClosingEquity v => setClosingEquity v s this
  end.

(** A chain of calls, [builder.setA(..).setB(..)...]. *)
Definition chain (cs : list Call) (st : Store * RealEstateDealBuilder)
  : Store * RealEstateDealBuilder :=
  fold_left (fun st c => call c (fst st) (snd st)) cs st.

(** What a call makes of the deal object of the builder. *)
Definition effect (c : Call) (d : RealEstateDeal) : RealEstateDeal :=
  match c with
  | call_setDeal p => spread d p
  | call_setSalePrice v => with_salePrice d v
  | call_setDownpaymentPercentage v => with_downpaymentPercentage d v
  | call_setAnnualMortgageInterestRate v => with_annualMortgageInterestRate d v
  | call_setMortgageAmortization v => with_mortgageAmortization d v
  | call_setPropertyTaxRate v => with_propertyTaxRate d v
  | call_setMonthlyHoaDues v => with_monthlyHoaDues d v
  | call_setVacancyRate v => with_vacancyRate d v
  | call_setMonthlyRent v => with_monthlyRent d v
  | call_setLandlordPaidUtilities v => with_landlordPaidUtilities d v
  | call_setNeedsPropertyManagement v => with_needsPropertyManagement d v
  | call_setUnitCount v => with_unitCount d v
  | call_setNewConstruction v => with_newConstruction d v
  | call_setClosingEquity v => with_closingEquity d v
  end.

Definition is_setDeal (c : Call) : bool :=
  match c with
  | call_setDeal _ => true
  | _ => false
  end.

(** A call that gives the interest rate a value. *)
Definition sets_rate (c : Call) : bool :=
  match c with
  | call_setDeal p =>
      match p_annualMortgageInterestRate p with
      | Some _ => true
      | None => false
      end
  | call_setAnnualMortgageInterestRate _ => true
  | _ => false
  end.

(** ** FormattingService: the titles of the report *)

(** A string is the list of its characters.  The model covers strings of
    ASCII characters; the classes below are those of the regular expressions
    of [formatTitle] on such characters. *)
Definition str : Type := list ascii.

Definition code (c : ascii) : nat := nat_of_ascii c.

(** [[A-Z]] *)
Definition is_upper (c : ascii) : bool := ((65 <=? code c) && (code c <=? 90))%nat.

Definition is_lower (c : ascii) : bool := ((97 <=? code c) && (code c <=? 122))%nat.

Definition is_digit (c : ascii) : bool := ((48 <=? code c) && (code c <=? 57))%nat.

(** [\w] *)
Definition is_word (c : ascii) : bool :=
  is_upper c || is_lower c || is_digit c || (code c =? 95)%nat.

(** The line terminators, which [.] does not match. *)
Definition is_line_terminator (c : ascii) : bool :=
  ((code c =? 10) || (code c =? 13))%nat.

(** The white space that [trim] removes. *)
Definition is_space (c : ascii) : bool :=
  ((9 <=? code c) && (code c <=? 13) || (code c =? 32))%nat.

Definition toUpperCase_char (c : ascii) : ascii :=
  if is_lower c then ascii_of_nat (code c - 32) else c.

Definition toUpperCase (s : str) : str := map toUpperCase_char s.

(** [s.replace(/([A-Z])/g, ' $1')] *)
Definition space_capitals (s : str) : str :=
  flat_map (fun c => if is_upper c then [" "%char; c] else [c]) s.

(** [s.replace(/^./, (char) => char.toUpperCase())] *)
Definition capitalize_first (s : str) : str :=
  match s with
  | [] => []
  | c :: rest => if is_line_terminator c then s else toUpperCase_char c :: rest
  end.

(** [s.replace(/\b\w+\b/g, f)]: the matches are the maximal runs of word
    characters; [word] is the run being read. *)
Fixpoint replace_words (f : str -> str) (word : str) (s : str) : str :=
  match s with
  | [] =>
      match word with
      | [] => []
      | _ => f word
      end
  | c :: rest =>
      if is_word c then replace_words f (word ++ [c]) rest
      else
        match word with
        | [] => []
        | _ => f word
        end ++ c :: replace_words f [] rest
  end.

Fixpoint trimStart (s : str) : str :=
  match s with
  | [] => []
  | c :: rest => if is_space c then trimStart rest else s
  end.

Definition trim (s : str) : str := rev (trimStart (rev (trimStart s))).

Fixpoint str_eqb (a b : str) : bool :=
  match a, b with
  | [], [] => true
  | x :: a', y :: b' => Ascii.eqb x y && str_eqb a' b'
  | _, _ => false
  end.

(** [set.has(x)] *)
Definition has (set : list str) (x : str) : bool := existsb (str_eqb x) set.

(** [new Set(['ROI', 'CoC', 'PMI', 'HOA', 'CapEx'])] *)
Definition acronyms : list str :=
  map list_ascii_of_string ["ROI"; "CoC"; "PMI"; "HOA"; "CapEx"]%string.

(** The chain of replacements of [formatTitle], for a set of acronyms. *)
Definition titleCase (acronyms : list str) (s : str) : str :=
  trim
    (replace_words
       (fun word => if has acronyms (toUpperCase word) then toUpperCase word else word)
       []
       (capitalize_first (space_capitals s))).

(** The map [titleCaseMap]: [get] reads the latest value set for a key. *)
Definition TitleCache : Type := list (str * str).

Fixpoint cache_get (m : TitleCache) (k : str) : option str :=
  match m with
  | [] => None
  | (k', v) :: rest => if str_eqb k k' then Some v else cache_get rest k
  end.

Definition cache_set (m : TitleCache) (k v : str) : TitleCache := (k, v) :: m.

(** The part of the service that [formatTitle] reads and writes. *)
Record FormattingService : Type := {
  formatTitleCase : bool;
  titleCaseMap : TitleCache
}.

(** [new FormattingService(config)], where [formatTitleCase] is
    [config.formatTitleCase ?? true]. *)
Definition new_FormattingService (config_formatTitleCase : option bool) : FormattingService :=
  {| formatTitleCase := or_else config_formatTitleCase true;
     titleCaseMap := [] |}.

Definition formatTitle (this : FormattingService) (s : str) : str * FormattingService :=
  let uncached :=
    if negb (formatTitleCase this) then (s, this)
    else
      let formatted := titleCase acronyms s in
      (formatted,
       {| formatTitleCase := formatTitleCase this;
          titleCaseMap := cache_set (titleCaseMap this) s formatted |}) in
  match cache_get (titleCaseMap this) s with
  | Some [] => uncached
  | Some cached => (cached, this)
  | None => uncached
  end.

(** Successive calls of [formatTitle] on the same service. *)
Fixpoint formatTitles (this : FormattingService) (keys : list str)
  : list str * FormattingService :=
  match keys with
  | [] => ([], this)
  | k :: rest =>
      let '(title, this') := formatTitle this k in
      let '(titles, this'') := formatTitles this' rest in
      (title :: titles, this'')
  end.

(** The cache holds nothing but titles that [formatTitle] computed. *)
Definition cache_ok (this : FormattingService) : Prop :=
  if formatTitleCase this
  then forall k v, cache_get (titleCaseMap this) k = Some v -> v = titleCase acronyms k
  else titleCaseMap this = [].

(** ** RealEstateDealAnalyser: the object and the numbers of its report *)

Record RealEstateDealAnalyser : Type := {
  a_input : RealEstateDeal;
  a_purchasePrice : number;
  a_services : Services
}.

(** [new RealEstateDealAnalyser(input)] *)
Definition new_RealEstateDealAnalyser (input : RealEstateDeal) : RealEstateDealAnalyser :=
  {| a_input := input;
     a_purchasePrice := salePrice input;
     a_services := initializeServices input (salePrice input) |}.

(** [adjustToMaxPurchasePrice()] on the object: the price left, and the
    services rebuilt at that price; [None] when the first loop has not ended
    within [fuel] doublings. *)
Definition adjust (fuel : nat) (this : RealEstateDealAnalyser)
  : option RealEstateDealAnalyser :=
  match adjustToMaxPurchasePrice fuel (a_input this) with
  | Some price =>
      Some {| a_input := a_input this;
              a_purchasePrice := int price;
              a_services := initializeServices (a_input this) (int price) |}
  | None => None
  end.

Definition resetPurchasePriceAdjustment (this : RealEstateDealAnalyser)
  : RealEstateDealAnalyser :=
  {| a_input := a_input this;
     a_purchasePrice := salePrice (a_input this);
     a_services := initializeServices (a_input this) (salePrice (a_input this)) |}.

(** [this.purchasePrice !== this.input.salePrice], which chooses the title
    of the report. *)
Definition isPurchasePriceAdjusted (this : RealEstateDealAnalyser) : bool :=
  negb (a_purchasePrice this === salePrice (a_input this)).

(** The states of the object: after the constructor, and after any calls
    of [adjustToMaxPurchasePrice] that end and of
    [resetPurchasePriceAdjustment]. *)
Inductive reachable (input : RealEstateDeal) : RealEstateDealAnalyser -> Prop :=
| reachable_new : reachable input (new_RealEstateDealAnalyser input)
| reachable_adjust (fuel : nat) (this this' : RealEstateDealAnalyser) :
    reachable input this -> adjust fuel this = Some this' -> reachable input this'
| reachable_reset (this : RealEstateDealAnalyser) :
    reachable input this -> reachable input (resetPurchasePriceAdjustment this).

(** A section of the report handed to [generateMarkdownReport] by
    [getFullResultsMarkdown], before formatting: the number shown in its
    title and its data, key by key.  The last section, whose data are lists
    joined into text, is left out. *)
Record ReportSection : Type := {
  section_value : number;
  section_data : list (string * number)
}.

Definition report_sections (this : RealEstateDealAnalyser) : list ReportSection :=
  let mortgageService := mortgageService (a_services this) in
  let expenseService := expenseService (a_services this) in
  let returnService := returnService (a_services this) in
  let annualExpenses := getAnnualExpenses expenseService in
  let avgCashflow := avgCashflow (getCashflows returnService) in
  let avgAppreciation := avgAppreciation (getAppreciations returnService) in
  let avgPrincipalReduction :=
    avgPrincipalReduction (getPrincipalReductions returnService) in
  let avgAmount := avgAmount (getReturns returnService) in
  [ {| section_value := getInitialInvestment returnService;
       section_data :=
         [("downPayment"%string, getDownPayment mortgageService);
          ("closingCosts"%string, getClosingCosts expenseService)] |};
    {| section_value := totalAnnualExpenses annualExpenses;
       section_data :=
         [("annualMortgagePayment"%string, annualMortgagePayment annualExpenses);
          ("annualHoaDues"%string, annualHoaDues annualExpenses);
          ("annualUtilities"%string, annualUtilities annualExpenses);
          ("annualPropertyManagement"%string, annualPropertyManagement annualExpenses);
          ("annualCapEx"%string, annualCapEx annualExpenses);
          ("annualMaintenanceCosts"%string, annualMaintenanceCosts annualExpenses);
          ("annualPropertyTax"%string, annualPropertyTax annualExpenses);
          ("annualPropertyInsurance"%string, annualPropertyInsurance annualExpenses);
          ("annualVacancyCosts"%string, annualVacancyCosts annualExpenses)] |};
    {| section_value := avgCashflow;
       section_data :=
         [("annualRent"%string, monthlyRent (a_input this) * int 12);
          ("annualExpenses"%string,
           totalAnnualExpenses (getAnnualExpenses expenseService))] |};
    {| section_value := getAvgCOCROI returnService;
       section_data :=
         [("cashflow"%string, avgCashflow);
          ("downPayment"%string, getDownPayment mortgageService);
          ("closingCosts"%string, a_purchasePrice this * CLOSING_COST_RATE)] |};
    {| section_value := avgAmount;
       section_data :=
         [("avgCashflow"%string, avgCashflow);
          ("avgPrincipalReduction"%string, avgPrincipalReduction);
          ("avgAppreciation"%string, avgAppreciation)] |} ].

(** The numbers of the data of a section of the report. *)
Definition data_of (this : RealEstateDealAnalyser) (section : nat) : list number :=
  map snd (section_data (nth section (report_sections this)
                           {| section_value := NaN; section_data := [] |})).

Definition value_of (this : RealEstateDealAnalyser) (section : nat) : number :=
  section_value (nth section (report_sections this)
                   {| section_value := NaN; section_data := [] |}).
(** * Properties *)

(** ** Arithmetic of [number] *)

Lemma Qc_is_zero_iff (q : Qc) : Qc_is_zero q = true <-> q = 0%Qc.
Proof.
  unfold Qc_is_zero, Qc_eq_bool.
  destruct (Qc_eq_dec q 0); split; congruence.
Qed.

Lemma Qc_is_zero_false (q : Qc) : Qc_is_zero q = false <-> q <> 0%Qc.
Proof.
  rewrite <- Qc_is_zero_iff. destruct (Qc_is_zero q); split; congruence.
Qed.

Lemma Qc_leb_iff (a b : Qc) : Qc_leb a b = true <-> (a <= b)%Qc.
Proof.
  unfold Qc_leb. destruct (Qclt_le_dec b a) as [H | H]; split; auto; try discriminate.
  intros H'. exfalso. exact (Qclt_not_le _ _ H H').
Qed.

Lemma Qc_ltb_iff (a b : Qc) : Qc_ltb a b = true <-> (a < b)%Qc.
Proof.
  unfold Qc_ltb. destruct (Qclt_le_dec a b) as [H | H]; split; auto; try discriminate.
  intros H'. exfalso. exact (Qclt_not_le _ _ H' H).
Qed.

Lemma Qc_leb_ltb (a b : Qc) : Qc_leb a b = negb (Qc_ltb b a).
Proof. unfold Qc_leb, Qc_ltb. destruct (Qclt_le_dec b a); reflexivity. Qed.

(** Comparisons are exclusive: [a < b] rules out [a >= b], NaN included. *)
Lemma nlt_not_nge (a b : number) : (a <? b) = true -> (a >=? b) = false.
Proof.
  unfold nge. destruct a, b; simpl; try congruence.
  rewrite Qc_leb_ltb. intros ->. reflexivity.
Qed.

Lemma twelve_nonzero : Q2Qc (inject_Z 12) <> 0%Qc.
Proof. intros H. discriminate H. Qed.

(** Dividing by twelve and multiplying back is the identity, whatever the
    number. *)
Lemma ndiv_nmul_12 (x : number) : x / int 12 * int 12 = x.
Proof.
  destruct x; try reflexivity.
  unfold int, ndiv, nmul.
  replace (Qc_is_zero (Q2Qc (inject_Z 12))) with false by reflexivity.
  f_equal. field. exact twelve_nonzero.
Qed.

Lemma Qpower_succ (q : Q) (n : nat) :
  (Qpower q (Z.of_nat (S n)) == q * Qpower q (Z.of_nat n))%Q.
Proof.
  rewrite Nat2Z.inj_succ, <- Z.add_1_l.
  rewrite Qpower_plus' by lia. reflexivity.
Qed.

Lemma Qc_pow_Qcpower (q : Qc) (n : nat) : Qc_pow q n = (q ^ n)%Qc.
Proof.
  induction n as [| n IH].
  - apply Qc_is_canon. reflexivity.
  - simpl Qcpower. rewrite <- IH. apply Qc_is_canon.
    unfold Qc_pow, Qcmult, Q2Qc. cbn [this].
    rewrite !Qred_correct. apply Qpower_succ.
Qed.

Lemma Qc_pow_1 (n : nat) : Qc_pow 1 n = 1%Qc.
Proof. rewrite Qc_pow_Qcpower. apply Qcpower_1. Qed.

(** One to any integer power is one. *)
Lemma npow_one (e : Z) : int 1 ** e = int 1.
Proof.
  destruct e; simpl; try reflexivity.
  - change (Q2Qc (inject_Z 1)) with 1%Qc. rewrite Qc_pow_1. reflexivity.
  - change (Q2Qc (inject_Z 1)) with 1%Qc.
    replace (Qc_is_zero 1) with false by reflexivity.
    rewrite Qc_pow_1. reflexivity.
Qed.

Lemma number_eqb_eq (a b : number) : number_eqb a b = true -> a = b.
Proof.
  destruct a, b; simpl; try congruence.
  intros H. f_equal. apply Qc_eq_bool_correct. exact H.
Qed.

Ltac number_eq := apply number_eqb_eq; vm_compute; reflexivity.

Lemma nadd_NaN_r (a : number) : a + NaN = NaN.
Proof. destruct a; reflexivity. Qed.

Lemma nmul_zero_over_zero (a : number) : (a * int 0) / int 0 = NaN.
Proof.
  destruct a as [q | | |]; try reflexivity.
  unfold int, nmul, ndiv.
  replace (Qc_is_zero (Q2Qc (inject_Z 0))) with true by reflexivity.
  unfold signed_inf.
  replace (Qc_is_zero (q * Q2Qc (inject_Z 0))) with true; [reflexivity |].
  symmetry. apply Qc_is_zero_iff. change (Q2Qc (inject_Z 0)) with 0%Qc. ring.
Qed.

(** ** The mortgage payment *)

(** C8.  The mortgage-insurance part of the monthly payment: the payment is
    the level payment plus an amount that is exactly 0 when the down payment
    is at least 20 per cent, and exactly [purchasePrice * 0.0098 / 12] when it
    is below 20 per cent.  This holds at every purchase price, so at every
    price [>= 0] in particular. *)
Theorem PMI_contribution (this : MortgageCalculationService) :
  ((downpaymentPercentage (m_deal this) >=? int 20) = true ->
     PMI this = int 0 /\
     getMonthlyMortgagePayment this = int 0 + levelPayment this) /\
  ((downpaymentPercentage (m_deal this) <? int 20) = true ->
     PMI this = m_purchasePrice this * dec 98 10000 / int 12 /\
     getMonthlyMortgagePayment this =
       m_purchasePrice this * dec 98 10000 / int 12 + levelPayment this).
Proof.
  unfold getMonthlyMortgagePayment, levelPayment, PMI. split; intros H.
  - rewrite H. split; reflexivity.
  - rewrite (nlt_not_nge _ _ H). split; reflexivity.
Qed.

(** With an interest rate of zero the payment formula divides zero by
    zero: the payment is NaN, whatever the loan, the term and the price. *)
Lemma zero_rate_payment (this : MortgageCalculationService) :
  annualMortgageInterestRate (m_deal this) = int 0 ->
  getMonthlyMortgagePayment this = NaN.
Proof.
  intros H. unfold getMonthlyMortgagePayment. rewrite H.
  replace (int 0 / int 100 / int 12) with (int 0) by number_eq.
  replace (int 1 + int 0) with (int 1) by number_eq.
  rewrite npow_one.
  replace (int 1 - int 1) with (int 0) by number_eq.
  rewrite nmul_zero_over_zero. apply nadd_NaN_r.
Qed.

(** C6.  At an interest rate of zero and a term of 300 months, the payment
    of the zero-rate deal at its sale price is NaN, where the loan spread
    over the term plus the mortgage insurance would be 992. *)
Theorem zero_rate_deal_payment :
  let this := {| m_deal := zero_rate_deal; m_purchasePrice := int 372000 |} in
  annualMortgageInterestRate zero_rate_deal = int 0 /\
  (mortgageAmortization zero_rate_deal * 12 = 300)%Z /\
  getMonthlyMortgagePayment this = NaN /\
  getLoanAmount this / int 300 + PMI this = int 992.
Proof.
  cbv zeta. split; [reflexivity | split; [reflexivity | split]].
  - apply zero_rate_payment. reflexivity.
  - number_eq.
Qed.

(** ** The classification of a price *)

(** C1.  At every deal and every purchase price, the classification is
    'good' (Acceptable) or 'max' (ExactMinimum) if and only if the three
    criteria hold together: average yield at least 0.25, average cashflow at
    least [100 * unitCount * 12], and average cash-on-cash return (average
    cashflow over initial investment) at least 0.05.  When they hold, the
    result is 'max' exactly when the floor of the average cashflow equals the
    cashflow threshold, and 'good' otherwise; when one fails, it is 'bad'
    (TooLow). *)
Theorem checkDealCriteria_classification
    (input : RealEstateDeal) (purchasePrice : number) :
  let s := returnService (initializeServices input purchasePrice) in
  let avgYield := avgYield (getReturns s) in
  let avgCashflow := avgCashflow (getCashflows s) in
  let avgCOCROI := avgCashflow / getInitialInvestment s in
  let threshold := int 100 * unitCount input * int 12 in
  let all_hold :=
    (avgYield >=? dec 25 100) && (avgCashflow >=? threshold)
    && (avgCOCROI >=? dec 5 100) in
  let result := classify_at input purchasePrice in
  ((result = crit_good \/ result = crit_max) <-> all_hold = true) /\
  (all_hold = true ->
     (result = crit_max <-> (nfloor avgCashflow === threshold) = true) /\
     (result = crit_good <-> (nfloor avgCashflow === threshold) = false)) /\
  (all_hold = false -> result = crit_bad).
Proof.
  cbv zeta.
  unfold classify_at, checkDealCriteria, getAvgCOCROI, minimumCashflow.
  change MINIMUM_MONTHLY_CASHFLOW_PER_DOOR with (int 100).
  change MINIMUM_ROI with (dec 25 100).
  change MINIMUM_COC_ROI with (dec 5 100).
  set (s := returnService (initializeServices input purchasePrice)).
  generalize (avgYield (getReturns s)) as y.
  generalize (avgCashflow (getCashflows s)) as c.
  generalize (getInitialInvestment s) as i.
  intros i c y.
  destruct ((y >=? dec 25 100) && (c >=? int 100 * unitCount input * int 12)
            && (c / i >=? dec 5 100)) eqn:Hall;
    destruct (nfloor c === int 100 * unitCount input * int 12) eqn:Hfloor;
    repeat split; intros; try discriminate; try reflexivity; auto;
    repeat match goal with
           | H : _ \/ _ |- _ => destruct H
           end; try discriminate.
Qed.

(** ** The yearly transition *)

(** C3.  Along the projection chain, from the state after year [k] to the
    state after year [k + 1]: the cashflow is the previous annual rent minus
    the total annual expenses, where management and vacancy are taken on the
    previous annual rent, divided by 12 for the month and multiplied by 12
    again as the two services write it, and the mortgage payment is the one
    of the service (it does not change from year to year); the principal
    paid is
    [monthlyPayment * 12 - remainingBalance * (annualInterestRate / 100)];
    the next annual rent is the previous one times [1 + 0.025]; the remaining
    balance goes down by the principal paid, and the cumulative principal and
    appreciation go up by the year's amounts. *)
Theorem calculateYearlyMetrics_transition (this : ReturnCalculationService) (k : nat) :
  let prev := metrics_after this k in
  let next := metrics_after this (S k) in
  let d := r_deal this in
  let price := r_purchasePrice this in
  let monthlyPayment := getMonthlyMortgagePayment (r_mortgageService this) in
  let es := {| e_deal := d; e_purchasePrice := price;
               e_mortgageService := r_mortgageService this |} in
  let totalAnnualExpenses :=
    sum [monthlyPayment * int 12;
         monthlyHoaDues d * int 12;
         getAnnualUtilities es;
         (if needsPropertyManagement d
          then annualRent prev / int 12 * int 12 *
               (if unitCount d >? int 4 then dec 8 100 else dec 1 10)
          else int 0);
         getAnnualCapEx es;
         getAnnualMaintenance es;
         price * (propertyTaxRate d / int 100);
         getAnnualInsurance es;
         annualRent prev / int 12 * int 12 * (vacancyRate d / int 100)] in
  cashFlow next = annualRent prev - totalAnnualExpenses /\
  principalPaid next =
    monthlyPayment * int 12 -
    remainingBalance prev * (annualMortgageInterestRate d / int 100) /\
  annualRent next = annualRent prev * (int 1 + dec 25 1000) /\
  remainingBalance next = remainingBalance prev - principalPaid next /\
  totalPrincipalPaid next = totalPrincipalPaid prev + principalPaid next /\
  totalAppreciation next = totalAppreciation prev + appreciation next.
Proof.
  cbv zeta. cbn [metrics_after].
  generalize (metrics_after this k) as prev. intros prev.
  unfold calculateYearlyMetrics.
  cbn [annualRent cashFlow principalPaid appreciation remainingBalance
       totalPrincipalPaid totalAppreciation].
  repeat split.
  unfold getAnnualExpenses. cbn [totalAnnualExpenses].
  unfold getAnnualManagement, getAnnualUtilities, getAnnualCapEx,
    getAnnualMaintenance, getAnnualInsurance, with_monthlyRent.
  cbn [e_deal e_purchasePrice e_mortgageService monthlyRent monthlyHoaDues
       unitCount needsPropertyManagement landlordPaidUtilities newConstruction
       propertyTaxRate vacancyRate].
  destruct (needsPropertyManagement (r_deal this)); reflexivity.
Qed.

(** ** The cashflow series *)

Lemma getCashflows_loop (this : ReturnCalculationService) (n : nat) :
  forall (k : nat) (cfs : list number) (g : number),
    for_range (S k) n (getCashflows_body this) (cfs, metrics_after this k, g) =
    (cfs ++ map (fun j => cashFlow (metrics_after this j)) (seq (S k) n),
     metrics_after this (k + n),
     match n with
     | O => g
     | S _ => totalPrincipalPaid (metrics_after this (k + n)) +
              totalAppreciation (metrics_after this (k + n))
     end).
Proof.
  induction n as [| n IH]; intros k cfs g.
  - cbn [for_range seq map]. rewrite app_nil_r, Nat.add_0_r. reflexivity.
  - cbn [for_range]. unfold getCashflows_body at 2.
    change (calculateYearlyMetrics this (S k) (metrics_after this k))
      with (metrics_after this (S k)).
    rewrite IH. cbn [seq map]. rewrite <- app_assoc. cbn [app].
    replace (S k + n)%nat with (k + S n)%nat by lia.
    destruct n; [| reflexivity].
    replace (k + 1)%nat with (S k) by lia. reflexivity.
Qed.

Lemma add_at_last (l : list number) (x v : number) :
  add_at (length l) v (l ++ [x]) = l ++ [x + v].
Proof.
  induction l as [| y l IH]; cbn [length app add_at]; [reflexivity |].
  rewrite IH. reflexivity.
Qed.

(** C2.  The series of [getCashflows]: the initial investment, negated, at
    index 0, then the cashflows of years 1 to 5 of the projection chain, the
    last one increased by the gained equity (final cumulative principal paid
    plus final cumulative appreciation); [trueCashflows] is the same series
    without its first entry and without the gained equity; [avgCashflow] is
    the arithmetic mean of [trueCashflows]. *)
Theorem getCashflows_series (this : ReturnCalculationService) :
  let cf := fun k => cashFlow (metrics_after this k) in
  let final := metrics_after this INVESTMENT_YEAR_TIME_HORIZON in
  let gainedEquity := totalPrincipalPaid final + totalAppreciation final in
  let initialInvestment :=
    getClosingCosts (r_expenseService this) + getDownPayment (r_mortgageService this) in
  cashflows (getCashflows this) =
    [- initialInvestment; cf 1%nat; cf 2%nat; cf 3%nat; cf 4%nat;
     cf 5%nat + gainedEquity] /\
  trueCashflows (getCashflows this) = [cf 1%nat; cf 2%nat; cf 3%nat; cf 4%nat; cf 5%nat] /\
  avgCashflow (getCashflows this) =
    (int 0 + cf 1%nat + cf 2%nat + cf 3%nat + cf 4%nat + cf 5%nat) / int 5.
Proof.
  cbv zeta. unfold getCashflows.
  change (getInitialMetrics this) with (metrics_after this 0).
  rewrite getCashflows_loop.
  change INVESTMENT_YEAR_TIME_HORIZON with 5%nat.
  cbn [seq map app tl Nat.add].
  cbn [cashflows trueCashflows avgCashflow].
  split; [| split; reflexivity].
  exact (add_at_last
           [- getInitialInvestment this;
            cashFlow (metrics_after this 1); cashFlow (metrics_after this 2);
            cashFlow (metrics_after this 3); cashFlow (metrics_after this 4)]
           (cashFlow (metrics_after this 5))
           (totalPrincipalPaid (metrics_after this 5) +
            totalAppreciation (metrics_after this 5))).
Qed.

(** ** The balance invariant *)

(** C10.  The invariant needs a finite payment.  On the zero-rate deal the
    payment is NaN, and so are the remaining balance and the principal paid
    from the first year on: after one year their sum is NaN, not the loan
    amount of 297600, although the invariant holds of the initial state. *)
Theorem balance_invariant_zero_rate :
  let this := returnService (initializeServices zero_rate_deal (int 372000)) in
  getLoanAmount (r_mortgageService this) = int 297600 /\
  balance_invariant this 0 /\
  remainingBalance (metrics_after this 1) + totalPrincipalPaid (metrics_after this 1) = NaN /\
  ~ balance_invariant this 1.
Proof.
  cbv zeta.
  assert (Hsum : remainingBalance
                   (metrics_after
                      (returnService (initializeServices zero_rate_deal (int 372000))) 1)
                 + totalPrincipalPaid
                     (metrics_after
                        (returnService (initializeServices zero_rate_deal (int 372000))) 1)
                 = NaN).
  { cbn [metrics_after].
    unfold calculateYearlyMetrics, calculatePrincipalReduction.
    cbn [remainingBalance totalPrincipalPaid].
    rewrite zero_rate_payment by reflexivity.
    cbn [nmul nsub nadd nneg]. apply nadd_NaN_r. }
  split; [number_eq | split; [| split; [exact Hsum |]]].
  - unfold balance_invariant. number_eq.
  - unfold balance_invariant. rewrite Hsum. intros H. symmetry in H.
    revert H. vm_compute. discriminate.
Qed.

(** ** The internal rate of return *)

(** Moving between [Qc] and [Q], where [lra] decides linear goals. *)
Ltac qc_to_q :=
  unfold Qcle, Qclt, Qcdiv, Qcminus, Qcplus, Qcmult, Qcopp, Qcinv in *;
  cbn [this Q2Qc] in *;
  rewrite ?Qred_correct in *;
  unfold inject_Z in *;
  cbn [Qinv Qnum Qden] in *.

(** One iteration of the loop of [calculateIRR], read on the brackets. *)
Lemma calculateIRR_loop_step (count : nat) (cfs : list number) (i : nat) :
  calculateIRR_loop (S count) cfs (fst (bracket cfs i)) (snd (bracket cfs i)) =
  if converged cfs i then Some (midpoint cfs i)
  else calculateIRR_loop count cfs (fst (bracket cfs (S i))) (snd (bracket cfs (S i))).
Proof.
  cbn [calculateIRR_loop bracket]. unfold converged, midpoint, tolerance.
  destruct (bracket cfs i) as [low high]. cbn [fst snd].
  destruct (nabs (npv ((low + high) / int 2) cfs) <? dec 1 1000000); [reflexivity |].
  destruct (npv ((low + high) / int 2) cfs <? int 0); reflexivity.
Qed.

(** The loop returns the midpoint of the first bracket that passes the
    test, if there is one among the [count] brackets from the [i]-th on. *)
Lemma calculateIRR_loop_some (cfs : list number) (r : number) (count : nat) :
  forall i,
    calculateIRR_loop count cfs (fst (bracket cfs i)) (snd (bracket cfs i)) = Some r <->
    exists j, (i <= j < i + count)%nat /\ r = midpoint cfs j /\
              converged cfs j = true /\
              forall l, (i <= l < j)%nat -> converged cfs l = false.
Proof.
  induction count as [| count IH]; intros i.
  - cbn [calculateIRR_loop]. split; [discriminate |].
    intros (j & Hj & _). lia.
  - rewrite calculateIRR_loop_step. destruct (converged cfs i) eqn:Hi.
    + split.
      * intros [= <-]. exists i. repeat split; try lia; auto.
      * intros (j & Hj & -> & Hc & Hfirst).
        destruct (Nat.eq_dec j i) as [-> | Hne]; [reflexivity |].
        rewrite (Hfirst i) in Hi by lia. discriminate.
    + rewrite IH. split.
      * intros (j & Hj & Hr & Hc & Hfirst). exists j. repeat split; try lia; auto.
        intros l Hl. destruct (Nat.eq_dec l i) as [-> | Hne]; [exact Hi |].
        apply Hfirst. lia.
      * intros (j & Hj & Hr & Hc & Hfirst). exists j.
        assert (j <> i) by (intros ->; congruence).
        repeat split; try lia; auto. intros l Hl. apply Hfirst. lia.
Qed.

Lemma calculateIRR_loop_none (cfs : list number) (count : nat) :
  forall i,
    calculateIRR_loop count cfs (fst (bracket cfs i)) (snd (bracket cfs i)) = None <->
    forall j, (i <= j < i + count)%nat -> converged cfs j = false.
Proof.
  induction count as [| count IH]; intros i.
  - cbn [calculateIRR_loop]. split; [intros _ j Hj; lia | reflexivity].
  - rewrite calculateIRR_loop_step. destruct (converged cfs i) eqn:Hi.
    + split; [discriminate |]. intros H. rewrite (H i) in Hi by lia. discriminate.
    + rewrite IH. split; intros H j Hj.
      * destruct (Nat.eq_dec j i) as [-> | Hne]; [exact Hi |]. apply H. lia.
      * apply H. lia.
Qed.

(** Every bracket is a pair of rationals [0 <= low <= high <= 1]. *)
Lemma bracket_bounds (cfs : list number) (i : nat) :
  exists low high : Qc,
    bracket cfs i = (Fin low, Fin high) /\
    (0 <= low)%Qc /\ (low <= high)%Qc /\ (high <= 1)%Qc.
Proof.
  induction i as [| i (low & high & E & H0 & Hlh & H1)].
  - exists 0%Qc, 1%Qc. cbn [bracket]. repeat split; discriminate.
  - cbn [bracket]. rewrite E.
    assert (Hmid : (Fin low + Fin high) / int 2 = Fin ((low + high) / Q2Qc (inject_Z 2)))
      by reflexivity.
    rewrite Hmid.
    assert (Hlo : (low <= (low + high) / Q2Qc (inject_Z 2))%Qc)
      by (qc_to_q; lra).
    assert (Hhi : ((low + high) / Q2Qc (inject_Z 2) <= high)%Qc)
      by (qc_to_q; lra).
    destruct (npv (Fin ((low + high) / Q2Qc (inject_Z 2))) cfs <? int 0).
    + exists low, ((low + high) / Q2Qc (inject_Z 2))%Qc. repeat split; auto.
      eapply Qcle_trans; eassumption.
    + exists ((low + high) / Q2Qc (inject_Z 2))%Qc, high. repeat split; auto.
      eapply Qcle_trans; eassumption.
Qed.

Lemma midpoint_bounds (cfs : list number) (i : nat) :
  exists mid : Qc,
    midpoint cfs i = Fin mid /\ (0 <= mid)%Qc /\ (mid <= 1)%Qc.
Proof.
  destruct (bracket_bounds cfs i) as (low & high & E & H0 & Hlh & H1).
  unfold midpoint. rewrite E. cbn [fst snd].
  exists ((low + high) / Q2Qc (inject_Z 2))%Qc. split; [reflexivity |].
  split; qc_to_q; lra.
Qed.

(** The net present value of [calculateIRR] is the sum, taken from the left
    and from 0, of the cashflows each divided by [(1 + mid) ** index]. *)
Lemma npv_from_fold (mid : number) (cfs : list number) :
  forall (index : nat) (acc : number),
    npv_from index mid cfs acc =
    fold_left (fun acc ic => acc + snd ic / (int 1 + mid) ** Z.of_nat (fst ic))
      (combine (seq index (length cfs)) cfs) acc.
Proof.
  induction cfs as [| cashflow rest IH]; intros index acc.
  - reflexivity.
  - cbn [npv_from length seq combine fold_left fst snd]. apply IH.
Qed.

(** C4.  [calculateIRR] is a bisection on the bracket [0, 1].  The net
    present value at a rate is the sum over the series of
    [cashflow / (1 + rate) ** index], added up from the left starting from 0.
    The first bracket is [0, 1]; each next one is the lower half of the
    bracket when the net present value at its midpoint is negative and the
    upper half otherwise.  [calculateIRR] returns the midpoint of the first
    of the 1000 successive brackets whose net present value is below the
    tolerance [1e-6] in absolute value, a rate between 0 and 1, and fails
    when none of the 1000 midpoints passes.  [getIRR] turns that failure into
    the value 0 and otherwise returns the rate found: it always yields a
    number. *)
Theorem calculateIRR_bisection (cfs : list number) :
  (forall mid : number,
      npv mid cfs =
      fold_left (fun acc ic => acc + snd ic / (int 1 + mid) ** Z.of_nat (fst ic))
        (combine (seq 0 (length cfs)) cfs) (int 0)) /\
  bracket cfs 0 = (int 0, int 1) /\
  (forall i,
      midpoint cfs i = (fst (bracket cfs i) + snd (bracket cfs i)) / int 2 /\
      bracket cfs (S i) =
      if npv (midpoint cfs i) cfs <? int 0
      then (fst (bracket cfs i), midpoint cfs i)
      else (midpoint cfs i, snd (bracket cfs i))) /\
  (forall r,
      calculateIRR cfs = Some r <->
      exists i, (i < 1000)%nat /\ r = midpoint cfs i /\
                (nabs (npv (midpoint cfs i) cfs) <? dec 1 1000000) = true /\
                forall j, (j < i)%nat ->
                  (nabs (npv (midpoint cfs j) cfs) <? dec 1 1000000) = false) /\
  (calculateIRR cfs = None <->
   forall i, (i < 1000)%nat ->
     (nabs (npv (midpoint cfs i) cfs) <? dec 1 1000000) = false) /\
  (forall r,
      calculateIRR cfs = Some r ->
      (int 0 <=? r) = true /\ (r <=? int 1) = true /\
      (nabs (npv r cfs) <? dec 1 1000000) = true /\
      getIRR_on cfs = r) /\
  (calculateIRR cfs = None -> getIRR_on cfs = int 0) /\
  (forall this,
      cashflows (getCashflows this) = cfs ->
      getIRR this = match calculateIRR cfs with Some r => r | None => int 0 end).
Proof.
  assert (Hsome : forall r,
             calculateIRR cfs = Some r <->
             exists i, (i < 1000)%nat /\ r = midpoint cfs i /\
                       converged cfs i = true /\
                       forall j, (j < i)%nat -> converged cfs j = false).
  { intros r. unfold calculateIRR, maxIterations.
    change (int 0) with (fst (bracket cfs 0)) at 1.
    change (int 1) with (snd (bracket cfs 0)) at 1.
    rewrite calculateIRR_loop_some. split.
    - intros (j & Hj & Hr & Hc & Hfirst). exists j. repeat split; auto; try lia.
      intros l Hl. apply Hfirst. lia.
    - intros (j & Hj & Hr & Hc & Hfirst). exists j. repeat split; auto; try lia.
      intros l Hl. apply Hfirst. lia. }
  assert (Hnone : calculateIRR cfs = None <->
                  forall i, (i < 1000)%nat -> converged cfs i = false).
  { unfold calculateIRR, maxIterations.
    change (int 0) with (fst (bracket cfs 0)) at 1.
    change (int 1) with (snd (bracket cfs 0)) at 1.
    rewrite calculateIRR_loop_none. split; intros H j Hj; apply H; lia. }
  assert (Hval : forall r,
             calculateIRR cfs = Some r ->
             (int 0 <=? r) = true /\ (r <=? int 1) = true /\
             (nabs (npv r cfs) <? dec 1 1000000) = true /\ getIRR_on cfs = r).
  { intros r Hr. pose proof Hr as Hr'. apply Hsome in Hr'.
    destruct Hr' as (i & Hi & -> & Hc & _).
    destruct (midpoint_bounds cfs i) as (mid & Emid & Hm0 & Hm1).
    unfold getIRR_on. rewrite Hr.
    split; [| split; [| split; [exact Hc |]]]; rewrite Emid.
    - cbn [nle int]. apply Qc_leb_iff. exact Hm0.
    - cbn [nle int]. apply Qc_leb_iff. exact Hm1.
    - reflexivity. }
  split; [intros mid; apply npv_from_fold |].
  split; [reflexivity |].
  split.
  { intros i. split; [reflexivity |].
    cbn [bracket]. unfold midpoint.
    destruct (bracket cfs i) as [low high]. cbn [fst snd].
    destruct (npv ((low + high) / int 2) cfs <? int 0); reflexivity. }
  split; [exact Hsome | split; [exact Hnone | split; [exact Hval | split]]].
  - intros H. unfold getIRR_on. rewrite H. reflexivity.
  - intros this <-. unfold getIRR.
    destruct (calculateIRR (cashflows (getCashflows this))) as [r |] eqn:E.
    + exact (proj2 (proj2 (proj2 (Hval r eq_refl)))).
    + unfold getIRR_on. rewrite E. reflexivity.
Qed.

(** C9.  On the series [-1000, 1100] the bisection converges, to
    [53687091 / 2^29], which is within [1e-4] of 0.10. *)
Theorem calculateIRR_round_trip :
  calculateIRR [int (-1000); int 1100] = Some (dec 53687091 536870912) /\
  (nabs (dec 53687091 536870912 - dec 10 100) <? dec 1 10000) = true /\
  getIRR_on [int (-1000); int 1100] = dec 53687091 536870912.
Proof.
  assert (H : calculateIRR [int (-1000); int 1100] = Some (dec 53687091 536870912)).
  { destruct (calculateIRR [int (-1000); int 1100]) as [r |] eqn:E.
    - f_equal. apply number_eqb_eq.
      assert (Hr : match calculateIRR [int (-1000); int 1100] with
                   | Some r' => number_eqb r' (dec 53687091 536870912)
                   | None => false
                   end = true) by (vm_compute; reflexivity).
      rewrite E in Hr. exact Hr.
    - assert (Hr : match calculateIRR [int (-1000); int 1100] with
                   | Some _ => true
                   | None => false
                   end = true) by (vm_compute; reflexivity).
      rewrite E in Hr. discriminate. }
  split; [exact H | split].
  - vm_compute. reflexivity.
  - unfold getIRR_on. rewrite H. reflexivity.
Qed.

(** ** The classification as the price varies *)

(** Finite numbers and signs of rationals. *)

Lemma fin_part_eq (a : number) : is_finite a = true -> a = Fin (fin_part a).
Proof. destruct a; try discriminate. reflexivity. Qed.

Lemma nle_Fin (a b : Qc) : (Fin a <=? Fin b) = true <-> (a <= b)%Qc.
Proof. exact (Qc_leb_iff a b). Qed.

Lemma nlt_Fin (a b : Qc) : (Fin a <? Fin b) = true <-> (a < b)%Qc.
Proof. exact (Qc_ltb_iff a b). Qed.

Lemma ndiv_Fin (x : Qc) {y : Qc} : y <> 0%Qc -> Fin x / Fin y = Fin (x / y).
Proof.
  intros H. unfold ndiv. apply Qc_is_zero_false in H. rewrite H. reflexivity.
Qed.

Lemma nle_finite_between (a : number) (lo hi : Qc) :
  (Fin lo <=? a) = true -> (a <=? Fin hi) = true -> is_finite a = true.
Proof. destruct a; simpl; congruence. Qed.

Lemma Qc_mul_nonneg (a b : Qc) : (0 <= a -> 0 <= b -> 0 <= a * b)%Qc.
Proof. intros Ha Hb. qc_to_q. apply Qmult_le_0_compat; assumption. Qed.

Lemma Qc_mul_pos (a b : Qc) : (0 < a -> 0 < b -> 0 < a * b)%Qc.
Proof. intros Ha Hb. qc_to_q. apply Qmult_lt_0_compat; assumption. Qed.

Lemma Qc_inv_pos (a : Qc) : (0 < a -> 0 < / a)%Qc.
Proof. intros Ha. qc_to_q. apply Qinv_lt_0_compat. assumption. Qed.

Lemma Qc_add_nonneg (a b : Qc) : (0 <= a -> 0 <= b -> 0 <= a + b)%Qc.
Proof. intros Ha Hb. qc_to_q. lra. Qed.

Lemma Qc_pos_nonzero {a : Qc} : (0 < a)%Qc -> a <> 0%Qc.
Proof. intros Ha E. rewrite E in Ha. discriminate Ha. Qed.

Lemma Qc_pow_gt_1 (b : Qc) (n : nat) :
  (1 < b)%Qc -> (0 < n)%nat -> (1 < Qc_pow b n)%Qc.
Proof.
  intros Hb Hn. unfold Qc_pow. qc_to_q.
  apply Qpower_1_lt; [exact Hb | lia].
Qed.

Lemma Qc_inv_lt_1 (a : Qc) : (1 < a)%Qc -> (/ a < 1)%Qc.
Proof.
  intros Ha. qc_to_q.
  change (/ a < / 1)%Q.
  apply -> Qinv_lt_contravar; [exact Ha | lra | lra].
Qed.

Lemma for_range_scale (c x : Qc) (n : nat) :
  forall from,
    for_range from n (fun (_ : nat) (v : number) => v * Fin c) (Fin x) = Fin (x * c ^ n).
Proof.
  revert x. induction n as [| n IH]; intros x from.
  - cbn [for_range Qcpower]. f_equal. ring.
  - cbn [for_range nmul]. rewrite IH. f_equal. cbn [Qcpower]. ring.
Qed.

Lemma for_range_compound (g : Qc) (n : nat) :
  forall from (p c : Qc),
    for_range from (S n)
      (fun (_ : nat) '(prevValue, currValue) => (currValue, currValue * Fin g))
      (Fin p, Fin c) =
    (Fin (c * g ^ n), Fin (c * g ^ S n)).
Proof.
  induction n as [| n IH]; intros from p c.
  - cbn [for_range nmul Qcpower]. f_equal; f_equal; ring.
  - change (for_range from (S (S n)) ?body (Fin p, Fin c))
      with (for_range (S from) (S n) body (Fin c, Fin c * Fin g)).
    cbn [nmul]. rewrite IH. cbn [Qcpower]. f_equal; f_equal; ring.
Qed.

Lemma Qcpower_nonzero (c : Qc) (n : nat) : c <> 0%Qc -> (c ^ n)%Qc <> 0%Qc.
Proof.
  intros Hc. induction n as [| n IH]; cbn [Qcpower].
  - discriminate.
  - intros E. apply Qcmult_integral in E. destruct E; contradiction.
Qed.

Lemma getReturns_loop (this : ReturnCalculationService) (init : number) (n : nat) :
  forall (k : nat) (ys amts : list number),
    for_range (S k) n (getReturns_body this init) (ys, amts, metrics_after this k) =
    (ys ++ map (fun j => annualReturn_at this j / init) (seq (S k) n),
     amts ++ map (annualReturn_at this) (seq (S k) n),
     metrics_after this (k + n)).
Proof.
  induction n as [| n IH]; intros k ys amts.
  - cbn [for_range seq map]. rewrite !app_nil_r, Nat.add_0_r. reflexivity.
  - cbn [for_range]. unfold getReturns_body at 2.
    change (calculateYearlyMetrics this (S k) (metrics_after this k))
      with (metrics_after this (S k)).
    rewrite IH. cbn [seq map]. rewrite <- !app_assoc. cbn [app].
    replace (S k + n)%nat with (k + S n)%nat by lia. reflexivity.
Qed.

Lemma getReturns_avgYield (this : ReturnCalculationService) :
  avgYield (getReturns this) =
  getArrAvg (map (fun j => annualReturn_at this j / getInitialInvestment this)
               (seq 1 INVESTMENT_YEAR_TIME_HORIZON)).
Proof.
  unfold getReturns.
  change (getInitialMetrics this) with (metrics_after this 0).
  rewrite getReturns_loop. reflexivity.
Qed.

Lemma getCashflows_avgCashflow (this : ReturnCalculationService) :
  avgCashflow (getCashflows this) =
  getArrAvg (map (fun j => cashFlow (metrics_after this j))
               (seq 1 INVESTMENT_YEAR_TIME_HORIZON)).
Proof.
  unfold getCashflows.
  change (getInitialMetrics this) with (metrics_after this 0).
  rewrite getCashflows_loop. reflexivity.
Qed.

Lemma five_eq : Q2Qc (inject_Z 5) = (1 + 1 + 1 + 1 + 1)%Qc.
Proof. apply Qc_is_canon. reflexivity. Qed.

Lemma Qc_le_div (t x : Qc) {y : Qc} : (0 < y)%Qc -> (t <= x / y <-> t * y <= x)%Qc.
Proof.
  intros Hy. qc_to_q. split; intros H.
  - apply (Qmult_le_r _ _ (/ y)); [apply Qinv_lt_0_compat; exact Hy |].
    rewrite <- Qmult_assoc, Qmult_inv_r, Qmult_1_r; [exact H |].
    intros E. rewrite E in Hy. discriminate Hy.
  - apply Qle_shift_div_l; assumption.
Qed.

(** Lowering the price keeps the three cleared criteria. *)
Lemma criteria_down {S G E c m q q' : Q} :
  (0 < q -> q <= q' -> 0 < c -> 0 <= E -> 0 <= m ->
   (125 # 100) * (c * q') <= S + (G - 5 * E) * q' ->
   5 * m <= S - 5 * E * q' ->
   (25 # 100) * (c * q') <= S - 5 * E * q' ->
   (125 # 100) * (c * q) <= S + (G - 5 * E) * q /\
   5 * m <= S - 5 * E * q /\
   (25 # 100) * (c * q) <= S - 5 * E * q)%Q.
Proof.
  intros Hq Hqq Hc HE Hm H1 H2 H3.
  assert (HEq : (E * q <= E * q')%Q) by nra.
  assert (Hcq : (c * q <= c * q')%Q) by nra.
  assert (HS : (0 <= S)%Q) by nra.
  split; [| split]; nra.
Qed.

Lemma Qc_criteria_down {S G E c m q q' : Qc} :
  (0 < q -> q <= q' -> 0 < c -> 0 < E -> 0 <= m ->
   Q2Qc (125 # 100) * (c * q') <= S + (G - Q2Qc (inject_Z 5) * E) * q' ->
   Q2Qc (inject_Z 5) * m <= S - Q2Qc (inject_Z 5) * E * q' ->
   Q2Qc (25 # 100) * (c * q') <= S - Q2Qc (inject_Z 5) * E * q' ->
   Q2Qc (125 # 100) * (c * q) <= S + (G - Q2Qc (inject_Z 5) * E) * q /\
   Q2Qc (inject_Z 5) * m <= S - Q2Qc (inject_Z 5) * E * q /\
   Q2Qc (25 # 100) * (c * q) <= S - Q2Qc (inject_Z 5) * E * q)%Qc.
Proof.
  intros Hq Hqq Hc HE Hm H1 H2 H3. qc_to_q. apply Qlt_le_weak in HE.
  exact (criteria_down Hq Hqq Hc HE Hm H1 H2 H3).
Qed.

(** *** Closed forms of the pipeline for a regular deal *)

Section Regular.

Variable d : RealEstateDeal.
Hypothesis regular : regular_deal d = true.

Lemma regular_fields :
  (downpaymentPercentage d = Fin (fin_part (downpaymentPercentage d)) /\
   (0 <= fin_part (downpaymentPercentage d))%Qc /\
   (fin_part (downpaymentPercentage d) <= Q2Qc (inject_Z 100))%Qc) /\
  (annualMortgageInterestRate d = Fin (fin_part (annualMortgageInterestRate d)) /\
   (0 < fin_part (annualMortgageInterestRate d))%Qc) /\
  (0 < mortgageAmortization d)%Z /\
  (propertyTaxRate d = Fin (fin_part (propertyTaxRate d)) /\
   (0 <= fin_part (propertyTaxRate d))%Qc) /\
  monthlyHoaDues d = Fin (fin_part (monthlyHoaDues d)) /\
  vacancyRate d = Fin (fin_part (vacancyRate d)) /\
  (monthlyRent d = Fin (fin_part (monthlyRent d)) /\
   (0 < fin_part (monthlyRent d))%Qc) /\
  (unitCount d = Fin (fin_part (unitCount d)) /\
   (0 <= fin_part (unitCount d))%Qc) /\
  closingEquity d = None.
Proof.
  pose proof regular as H. unfold regular_deal in H.
  rewrite !andb_true_iff in H.
  destruct H as [[[[[[[[[[[[[Hdp0 Hdp1] Hrf] Hr0] Hy] Htf] Ht0] Hhf] Hvf] Hmf] Hm0]
                   Huf] Hu0] Hce].
  assert (Hdp : is_finite (downpaymentPercentage d) = true)
    by (eapply nle_finite_between; eassumption).
  apply fin_part_eq in Hdp, Hrf, Htf, Hhf, Hvf, Hmf, Huf.
  rewrite Hdp in Hdp0, Hdp1. rewrite Hrf in Hr0. rewrite Htf in Ht0.
  rewrite Hmf in Hm0. rewrite Huf in Hu0.
  apply nle_Fin in Hdp0, Hdp1, Ht0, Hu0. apply nlt_Fin in Hr0, Hm0.
  apply Z.ltb_lt in Hy.
  repeat split; try assumption.
  destruct (closingEquity d); [discriminate | reflexivity].
Qed.

Lemma monthlyRate_pos : (0 < monthlyRate d)%Qc.
Proof.
  destruct regular_fields as (_ & (_ & Hr) & _).
  unfold monthlyRate, annualRateFraction. qc_to_q. lra.
Qed.

Lemma termMonths_pos : (0 < termMonths d)%nat.
Proof.
  destruct regular_fields as (_ & _ & Hy & _). unfold termMonths. lia.
Qed.

Lemma annuityDenominator_pos : (0 < annuityDenominator d)%Qc.
Proof.
  unfold annuityDenominator.
  assert (H : (/ Qc_pow (Q2Qc (inject_Z 1) + monthlyRate d) (termMonths d) < 1)%Qc).
  { apply Qc_inv_lt_1. apply Qc_pow_gt_1; [| exact termMonths_pos].
    pose proof monthlyRate_pos as Hr. qc_to_q. lra. }
  revert H. generalize (/ Qc_pow (Q2Qc (inject_Z 1) + monthlyRate d) (termMonths d))%Qc.
  intros x H. qc_to_q. lra.
Qed.

Lemma pmiCoeff_nonneg : (0 <= pmiCoeff d)%Qc.
Proof. unfold pmiCoeff. destruct (_ >=? _); discriminate. Qed.

Lemma loanCoeff_nonneg : (0 <= loanCoeff d)%Qc.
Proof.
  destruct regular_fields as ((_ & _ & Hdp) & _). unfold loanCoeff. qc_to_q. lra.
Qed.

Lemma paymentCoeff_nonneg : (0 <= paymentCoeff d)%Qc.
Proof.
  unfold paymentCoeff. apply Qc_add_nonneg; [exact pmiCoeff_nonneg |].
  unfold Qcdiv. apply Qc_mul_nonneg.
  - apply Qc_mul_nonneg; [exact loanCoeff_nonneg |].
    apply Qclt_le_weak, monthlyRate_pos.
  - apply Qclt_le_weak, Qc_inv_pos, annuityDenominator_pos.
Qed.

Lemma npow_neg_closed {b : Qc} {y : Z} :
  (0 < b)%Qc -> (0 < y)%Z ->
  Fin b ** (- (y * 12))%Z = Fin (/ Qc_pow b (Z.to_nat (y * 12))).
Proof.
  intros Hb Hy. destruct y as [| p |]; try lia.
  cbn [Z.mul Z.opp npow Z.to_nat].
  apply Qc_pos_nonzero, Qc_is_zero_false in Hb. rewrite Hb. reflexivity.
Qed.

Lemma payment_closed (q : Qc) :
  getMonthlyMortgagePayment {| m_deal := d; m_purchasePrice := Fin q |} =
  Fin (paymentCoeff d * q).
Proof.
  destruct regular_fields as ((Hdp & _) & (Hr & _) & Hy & _ & _ & _ & _ & _ & Hce).
  pose proof annuityDenominator_pos as HD. apply Qc_pos_nonzero in HD.
  assert (Hbase : (0 < Q2Qc (inject_Z 1) + monthlyRate d)%Qc).
  { pose proof monthlyRate_pos as H. qc_to_q. lra. }
  unfold getMonthlyMortgagePayment, PMI, getLoanAmount, getDownPayment,
    closingEquity_or_0, paymentCoeff, pmiCoeff.
  cbn [m_deal m_purchasePrice]. rewrite Hce.
  assert (Hrate : annualMortgageInterestRate d / int 100 / int 12 = Fin (monthlyRate d)).
  { rewrite Hr. reflexivity. }
  rewrite Hrate.
  assert (Hden : int 1 - (int 1 + Fin (monthlyRate d)) ** (- (mortgageAmortization d * 12))
                 = Fin (annuityDenominator d)).
  { unfold int at 2. cbn [nadd]. rewrite (npow_neg_closed Hbase Hy). reflexivity. }
  rewrite Hden.
  assert (Hloan : Fin q - Fin q * (downpaymentPercentage d / int 100) - int 0
                  = Fin (loanCoeff d * q)).
  { rewrite Hdp. unfold int. rewrite ndiv_Fin by (intros E; discriminate E).
    cbn [nsub nadd nmul nneg]. f_equal. unfold loanCoeff.
    change (Q2Qc (inject_Z 0)) with 0%Qc. ring. }
  rewrite Hloan. cbn [nmul]. rewrite (ndiv_Fin _ HD).
  destruct (downpaymentPercentage d >=? int 20).
  - unfold int. cbn [nadd]. f_equal. change (Q2Qc (inject_Z 0)) with 0%Qc. field.
    exact HD.
  - unfold PMI_RATE, dec, int. cbn [nmul].
    rewrite ndiv_Fin by (intros E; discriminate E). cbn [nadd]. f_equal.
    field. split; [exact HD | intros E; discriminate E].
Qed.

Lemma if_Fin (b : bool) (x y : Qc) :
  (if b then Fin x else Fin y) = Fin (if b then x else y).
Proof. destruct b; reflexivity. Qed.

Lemma expenses_closed (q R : Qc) :
  totalAnnualExpenses
    (getAnnualExpenses
       {| e_deal := with_monthlyRent d (Fin R / int 12);
          e_purchasePrice := Fin q;
          e_mortgageService := {| m_deal := d; m_purchasePrice := Fin q |} |}) =
  Fin (fixedExpenses d + rentExpenseCoeff d * R + priceExpenseCoeff d * q).
Proof.
  destruct regular_fields as (_ & _ & _ & (Htax & _) & Hhoa & Hvac & _ & (Hunits & _) & _).
  unfold getAnnualExpenses. cbn [totalAnnualExpenses].
  unfold getAnnualManagement, getAnnualUtilities, getAnnualCapEx,
    getAnnualMaintenance, getAnnualInsurance, with_monthlyRent.
  cbn [e_deal e_purchasePrice e_mortgageService monthlyRent monthlyHoaDues
       unitCount needsPropertyManagement landlordPaidUtilities newConstruction
       propertyTaxRate vacancyRate].
  rewrite ndiv_nmul_12, payment_closed.
  unfold fixedExpenses, rentExpenseCoeff, priceExpenseCoeff.
  set (hoa_pos := monthlyHoaDues d >? int 0).
  set (hoa_set := truthy (monthlyHoaDues d)).
  set (many := unitCount d >? int 4).
  rewrite Htax, Hhoa, Hvac, Hunits.
  unfold CAPEX_RATE, BASE_INSURANCE_RATE, CONDO_INSURANCE_RATE, UNIT_UTILITY_COST,
    MAINTENANCE_RATES.NEW_CONSTRUCTION, MAINTENANCE_RATES.EXISTING_CONSTRUCTION,
    MANAGEMENT_RATES.MULTI_FAMILY, MANAGEMENT_RATES.SINGLE_FAMILY, int, dec.
  rewrite !ndiv_Fin by (intros E; discriminate E).
  cbn [nmul negb]. rewrite ?if_Fin. cbn [nmul]. rewrite ?if_Fin.
  cbn [sum fold_left]. unfold int. cbn [nadd]. f_equal.
  change (Q2Qc (inject_Z 0)) with 0%Qc. cbn [fin_part].
  destruct hoa_pos, hoa_set, (landlordPaidUtilities d), (needsPropertyManagement d);
    cbn [negb]; field; intros E; discriminate E.
Qed.

Lemma appreciation_closed (q : Qc) (k : nat) (ms : MortgageCalculationService)
    (es : ExpenseCalculationService) :
  calculateAppreciation
    {| r_deal := d; r_purchasePrice := Fin q;
       r_mortgageService := ms; r_expenseService := es |} (S k) =
  Fin (appreciationCoeff d k * q).
Proof.
  destruct regular_fields as (_ & _ & _ & _ & _ & _ & (Hrent & Hrent0) & _).
  unfold calculateAppreciation, appreciationCoeff, growthFactor.
  cbn [Nat.ltb Nat.leb r_deal r_purchasePrice].
  destruct (unitCount d >? int 1).
  - unfold APPRECIATION_RATES.RENT, int, dec. cbn [nadd].
    rewrite Hrent. rewrite for_range_scale.
    set (c := (Q2Qc (inject_Z 1) + Q2Qc (25 # 1000))%Qc).
    set (rent := fin_part (monthlyRent d)) in *.
    assert (Hc : c <> 0%Qc) by (intros E; discriminate E).
    apply Qc_pos_nonzero in Hrent0.
    assert (Hpow : (c ^ k)%Qc <> 0%Qc) by (apply Qcpower_nonzero; exact Hc).
    assert (HP : (rent * c ^ S k / c)%Qc = (rent * c ^ k)%Qc)
      by (cbn [Qcpower]; field; exact Hc).
    assert (HP0 : (rent * c ^ k)%Qc <> 0%Qc).
    { intros E. apply Qcmult_integral in E. destruct E; contradiction. }
    rewrite (ndiv_Fin _ Hc), HP. cbn [nmul].
    rewrite (ndiv_Fin _ Hrent0). cbn [nmul]. rewrite (ndiv_Fin _ HP0).
    cbn [nsub nadd nneg]. f_equal. cbn [Qcpower]. field.
    split; assumption.
  - unfold APPRECIATION_RATES.SFH, int, dec. cbn [nadd nmul].
    rewrite for_range_compound. cbn [nsub nadd nneg]. f_equal.
    cbn [Qcpower]. ring.
Qed.

Lemma step_closed {q R rho : Qc} (k : nat) (prev : YearMetrics) :
  annualRent prev = Fin R ->
  remainingBalance prev = Fin (rho * q) ->
  let next := calculateYearlyMetrics (serviceAt d q) (S k) prev in
  annualRent next = Fin (R * (Q2Qc (inject_Z 1) + Q2Qc (25 # 1000))) /\
  cashFlow next =
    Fin (R - (fixedExpenses d + rentExpenseCoeff d * R) - priceExpenseCoeff d * q) /\
  principalPaid next =
    Fin ((paymentCoeff d * Q2Qc (inject_Z 12) - rho * annualRateFraction d) * q) /\
  appreciation next = Fin (appreciationCoeff d k * q) /\
  remainingBalance next =
    Fin ((rho - (paymentCoeff d * Q2Qc (inject_Z 12) - rho * annualRateFraction d)) * q).
Proof.
  intros HR Hrho. cbv zeta.
  destruct regular_fields as (_ & (Hr & _) & _).
  unfold calculateYearlyMetrics, calculatePrincipalReduction, serviceAt.
  cbn [returnService initializeServices r_deal r_purchasePrice r_mortgageService
       annualRent cashFlow principalPaid appreciation remainingBalance].
  rewrite HR, Hrho, expenses_closed, payment_closed, appreciation_closed, Hr.
  unfold APPRECIATION_RATES.RENT, int, dec.
  rewrite ndiv_Fin by (intros E; discriminate E).
  cbn [nadd nsub nmul nneg]. unfold annualRateFraction.
  repeat split; f_equal; ring.
Qed.

Lemma chain_closed (q : Qc) (k : nat) :
  annualRent (metrics_after (serviceAt d q) k) = Fin (rentAt d k) /\
  remainingBalance (metrics_after (serviceAt d q) k) = Fin (balanceCoeff d k * q).
Proof.
  induction k as [| k [IHrent IHbal]].
  - destruct regular_fields as ((Hdp & _) & _ & _ & _ & _ & _ & (Hrent & _) & _ & Hce).
    cbn [metrics_after getInitialMetrics annualRent remainingBalance balanceCoeff].
    unfold serviceAt, getLoanAmount, getDownPayment, closingEquity_or_0, rentAt, loanCoeff.
    cbn [returnService initializeServices r_deal r_mortgageService m_deal m_purchasePrice].
    rewrite Hce, Hrent, Hdp. unfold int.
    rewrite ndiv_Fin by (intros E; discriminate E).
    cbn [nadd nsub nmul nneg Qcpower fin_part]. split; f_equal.
    + ring.
    + change (Q2Qc (inject_Z 0)) with 0%Qc. ring.
  - cbn [metrics_after].
    destruct (step_closed k (metrics_after (serviceAt d q) k) IHrent IHbal)
      as (Hrent' & _ & _ & _ & Hbal').
    split.
    + rewrite Hrent'. f_equal. unfold rentAt. cbn [Qcpower]. ring.
    + rewrite Hbal'. reflexivity.
Qed.

Lemma year_closed (q : Qc) (k : nat) :
  cashFlow (metrics_after (serviceAt d q) (S k)) =
    Fin (cashflowFixed d k - priceExpenseCoeff d * q) /\
  principalPaid (metrics_after (serviceAt d q) (S k)) = Fin (principalCoeff d k * q) /\
  appreciation (metrics_after (serviceAt d q) (S k)) = Fin (appreciationCoeff d k * q).
Proof.
  destruct (chain_closed q k) as [Hrent Hbal].
  cbn [metrics_after].
  destruct (step_closed k (metrics_after (serviceAt d q) k) Hrent Hbal)
    as (_ & Hcf & Hpp & Hap & _).
  rewrite Hcf, Hpp, Hap. repeat split.
Qed.

Lemma investment_closed (q : Qc) :
  getInitialInvestment (serviceAt d q) = Fin (investmentCoeff d * q).
Proof.
  destruct regular_fields as ((Hdp & _) & _).
  unfold getInitialInvestment, getClosingCosts, getDownPayment, serviceAt, investmentCoeff.
  cbn [returnService initializeServices r_expenseService r_mortgageService
       e_purchasePrice m_purchasePrice m_deal].
  rewrite Hdp. unfold CLOSING_COST_RATE, int, dec.
  rewrite ndiv_Fin by (intros E; discriminate E).
  cbn [nadd nmul fin_part]. f_equal. ring.
Qed.

Lemma investmentCoeff_pos : (0 < investmentCoeff d)%Qc.
Proof.
  destruct regular_fields as ((_ & Hdp & _) & _). unfold investmentCoeff. qc_to_q. lra.
Qed.

Lemma avgCashflow_closed (q : Qc) :
  avgCashflow (getCashflows (serviceAt d q)) =
  Fin ((totalCashflowFixed d - Q2Qc (inject_Z 5) * priceExpenseCoeff d * q)
       / Q2Qc (inject_Z 5)).
Proof.
  rewrite getCashflows_avgCashflow.
  change INVESTMENT_YEAR_TIME_HORIZON with 5%nat. cbn [seq map].
  repeat match goal with
         | |- context [cashFlow (metrics_after (serviceAt d q) (S ?k))] =>
             rewrite (proj1 (year_closed q k))
         end.
  unfold getArrAvg. cbn [sum fold_left length Z.of_nat Pos.of_succ_nat Pos.succ].
  unfold int. cbn [nadd]. rewrite ndiv_Fin by (intros E; discriminate E).
  f_equal. unfold totalCashflowFixed. change (Q2Qc (inject_Z 0)) with 0%Qc.
  rewrite five_eq. field. intros E; discriminate E.
Qed.

Lemma avgYield_closed (q : Qc) :
  (0 < q)%Qc ->
  avgYield (getReturns (serviceAt d q)) =
  Fin ((totalCashflowFixed d
        + (totalGainCoeff d - Q2Qc (inject_Z 5) * priceExpenseCoeff d) * q)
       / (investmentCoeff d * q) / Q2Qc (inject_Z 5)).
Proof.
  intros Hq.
  assert (Hcq : (investmentCoeff d * q)%Qc <> 0%Qc)
    by (apply Qc_pos_nonzero, Qc_mul_pos; [exact investmentCoeff_pos | exact Hq]).
  rewrite getReturns_avgYield, investment_closed.
  change INVESTMENT_YEAR_TIME_HORIZON with 5%nat. cbn [seq map].
  unfold annualReturn_at.
  repeat match goal with
         | |- context [cashFlow (metrics_after (serviceAt d q) (S ?k))] =>
             destruct (year_closed q k) as (-> & -> & ->)
         end.
  cbn [nadd]. rewrite !(ndiv_Fin _ Hcq).
  unfold getArrAvg. cbn [sum fold_left length Z.of_nat Pos.of_succ_nat Pos.succ].
  unfold int. cbn [nadd]. rewrite ndiv_Fin by (intros E; discriminate E).
  f_equal. unfold totalCashflowFixed, totalGainCoeff.
  change (Q2Qc (inject_Z 0)) with 0%Qc.
  rewrite five_eq. field.
  split; [exact (Qc_pos_nonzero Hq) | split].
  - exact (Qc_pos_nonzero investmentCoeff_pos).
  - intros E; discriminate E.
Qed.

Lemma minimumCashflow_closed :
  minimumCashflow d = Fin (fin_part (minimumCashflow d)) /\
  (0 <= fin_part (minimumCashflow d))%Qc.
Proof.
  destruct regular_fields as (_ & _ & _ & _ & _ & _ & _ & (Hunits & Hu0) & _).
  unfold minimumCashflow, MINIMUM_MONTHLY_CASHFLOW_PER_DOOR, int.
  rewrite Hunits. cbn [nmul fin_part]. split; [reflexivity |].
  revert Hu0. generalize (fin_part (unitCount d)). intros u Hu.
  apply Qc_mul_nonneg; [apply Qc_mul_nonneg |]; try exact Hu; discriminate.
Qed.

Lemma classify_closed (q : Qc) :
  (0 < q)%Qc ->
  (classify_at d (Fin q) <> crit_bad <-> acceptable_at d q).
Proof.
  intros Hq.
  assert (Hcq : (0 < investmentCoeff d * q)%Qc)
    by (apply Qc_mul_pos; [exact investmentCoeff_pos | exact Hq]).
  assert (H5 : (0 < Q2Qc (inject_Z 5))%Qc) by reflexivity.
  destruct minimumCashflow_closed as [Hmin _].
  unfold classify_at, checkDealCriteria, getAvgCOCROI.
  fold (serviceAt d q). rewrite avgYield_closed by exact Hq.
  rewrite avgCashflow_closed, investment_closed, Hmin.
  rewrite (ndiv_Fin _ (Qc_pos_nonzero Hcq)).
  unfold MINIMUM_ROI, MINIMUM_COC_ROI, dec, nge. cbn [nle].
  unfold acceptable_at.
  set (Y := ((totalCashflowFixed d
              + (totalGainCoeff d - Q2Qc (inject_Z 5) * priceExpenseCoeff d) * q)
             / (investmentCoeff d * q) / Q2Qc (inject_Z 5))%Qc).
  set (C := ((totalCashflowFixed d - Q2Qc (inject_Z 5) * priceExpenseCoeff d * q)
             / Q2Qc (inject_Z 5))%Qc).
  assert (H1 : Qc_leb (Q2Qc (25 # 100)) Y = true <->
               (Q2Qc (125 # 100) * (investmentCoeff d * q) <=
                totalCashflowFixed d
                + (totalGainCoeff d - Q2Qc (inject_Z 5) * priceExpenseCoeff d) * q)%Qc).
  { rewrite Qc_leb_iff. unfold Y. rewrite (Qc_le_div _ _ H5), (Qc_le_div _ _ Hcq).
    replace (Q2Qc (25 # 100) * Q2Qc (inject_Z 5) * (investmentCoeff d * q))%Qc
      with (Q2Qc (125 # 100) * (investmentCoeff d * q))%Qc; [reflexivity |].
    replace (Q2Qc (125 # 100)) with (Q2Qc (25 # 100) * Q2Qc (inject_Z 5))%Qc
      by (apply Qc_is_canon; reflexivity).
    ring. }
  assert (H2 : Qc_leb (fin_part (minimumCashflow d)) C = true <->
               (Q2Qc (inject_Z 5) * fin_part (minimumCashflow d) <=
                totalCashflowFixed d - Q2Qc (inject_Z 5) * priceExpenseCoeff d * q)%Qc).
  { rewrite Qc_leb_iff. unfold C. rewrite (Qc_le_div _ _ H5).
    rewrite (Qcmult_comm (fin_part _)). reflexivity. }
  assert (H3 : Qc_leb (Q2Qc (5 # 100)) (C / (investmentCoeff d * q)) = true <->
               (Q2Qc (25 # 100) * (investmentCoeff d * q) <=
                totalCashflowFixed d - Q2Qc (inject_Z 5) * priceExpenseCoeff d * q)%Qc).
  { rewrite Qc_leb_iff. unfold C. rewrite (Qc_le_div _ _ Hcq), (Qc_le_div _ _ H5).
    replace (Q2Qc (5 # 100) * (investmentCoeff d * q) * Q2Qc (inject_Z 5))%Qc
      with (Q2Qc (25 # 100) * (investmentCoeff d * q))%Qc; [reflexivity |].
    replace (Q2Qc (25 # 100)) with (Q2Qc (5 # 100) * Q2Qc (inject_Z 5))%Qc
      by (apply Qc_is_canon; reflexivity).
    ring. }
  rewrite <- H1, <- H2, <- H3.
  destruct (Qc_leb (Q2Qc (25 # 100)) Y), (Qc_leb (fin_part (minimumCashflow d)) C),
    (Qc_leb (Q2Qc (5 # 100)) (C / (investmentCoeff d * q))); cbn [andb];
    try (destruct (_ === _)); split; try tauto; try congruence;
    intros (? & ? & ?); discriminate.
Qed.

Lemma priceExpenseCoeff_pos : (0 < priceExpenseCoeff d)%Qc.
Proof.
  destruct regular_fields as (_ & _ & _ & (_ & Htax) & _).
  pose proof paymentCoeff_nonneg as Hpay.
  unfold priceExpenseCoeff.
  assert (H1 : (0 <= (if monthlyHoaDues d >? int 0 then 0 else Q2Qc (1 # 100)))%Qc)
    by (destruct (_ >? _); discriminate).
  assert (H2 : (0 < (if newConstruction d then Q2Qc (15 # 10000) else Q2Qc (54 # 10000)))%Qc)
    by (destruct (newConstruction d); reflexivity).
  assert (H3 : (0 <= (if truthy (monthlyHoaDues d) then 0 else Q2Qc (44 # 10000)))%Qc)
    by (destruct (truthy _); discriminate).
  revert H1 H2 H3.
  generalize (if monthlyHoaDues d >? int 0 then 0%Qc else Q2Qc (1 # 100)).
  generalize (if newConstruction d then Q2Qc (15 # 10000) else Q2Qc (54 # 10000)).
  generalize (if truthy (monthlyHoaDues d) then 0%Qc else Q2Qc (44 # 10000)).
  intros x3 x2 x1 H1 H2 H3. qc_to_q. lra.
Qed.

Lemma acceptable_down (q q' : Qc) :
  (0 < q)%Qc -> (q <= q')%Qc -> acceptable_at d q' -> acceptable_at d q.
Proof.
  intros Hq Hqq (H1 & H2 & H3).
  exact (Qc_criteria_down Hq Hqq investmentCoeff_pos priceExpenseCoeff_pos
           (proj2 minimumCashflow_closed) H1 H2 H3).
Qed.

Lemma classify_bad_iff (q : Qc) :
  (0 < q)%Qc -> (classify_at d (Fin q) = crit_bad <-> ~ acceptable_at d q).
Proof.
  intros Hq. rewrite <- (classify_closed q Hq).
  destruct (classify_at d (Fin q)); split; intros H; try congruence;
    try (exfalso; apply H; discriminate).
Qed.

Lemma classify_down (q q' : Qc) :
  (0 < q)%Qc -> (q <= q')%Qc ->
  classify_at d (Fin q) = crit_bad -> classify_at d (Fin q') = crit_bad.
Proof.
  intros Hq Hqq Hbad.
  assert (Hq' : (0 < q')%Qc) by (eapply Qclt_le_trans; eassumption).
  apply (classify_bad_iff q Hq) in Hbad. apply (classify_bad_iff q' Hq').
  intros Hacc. apply Hbad. exact (acceptable_down q q' Hq Hqq Hacc).
Qed.

End Regular.

(** With too little room at price zero no price is acceptable. *)
Lemma Qc_never_acceptable {S E m q : Qc} :
  (S < Q2Qc (inject_Z 5) * m -> 0 < E -> 0 < q ->
   ~ Q2Qc (inject_Z 5) * m <= S - Q2Qc (inject_Z 5) * E * q)%Qc.
Proof.
  intros HS HE Hq H. qc_to_q.
  assert (HEq : (0 < E * q)%Q) by (apply Qmult_lt_0_compat; assumption).
  lra.
Qed.

Lemma low_rent_regular : regular_deal low_rent_deal = true.
Proof. reflexivity. Qed.

Lemma low_rent_no_room :
  (totalCashflowFixed low_rent_deal
   < Q2Qc (inject_Z 5) * fin_part (minimumCashflow low_rent_deal))%Qc.
Proof. vm_compute. reflexivity. Qed.

Lemma low_rent_bad (q : Qc) :
  (0 < q)%Qc -> classify_at low_rent_deal (Fin q) = crit_bad.
Proof.
  intros Hq. apply (classify_bad_iff low_rent_deal low_rent_regular q Hq).
  intros (_ & H2 & _).
  exact (Qc_never_acceptable low_rent_no_room
           (priceExpenseCoeff_pos low_rent_deal low_rent_regular) Hq H2).
Qed.


(** On the integer prices that the search tries, a regular deal that is
    'bad' at a positive price is 'bad' at every price above it. *)
Lemma classify_up (d : RealEstateDeal) (z z' : Z) :
  regular_deal d = true -> (0 < z <= z')%Z ->
  classify d z = crit_bad -> classify d z' = crit_bad.
Proof.
  intros Hreg [Hz Hzz]. unfold classify, int. apply (classify_down d Hreg).
  - qc_to_q. rewrite Zlt_Qlt in Hz. exact Hz.
  - qc_to_q. rewrite Zle_Qle in Hzz. exact Hzz.
Qed.




(** ** The search for the maximum purchase price *)

(** When the prices 1 and 0 are both 'bad', the first loop stops at once,
    the search tries the price 0 only, and the price left is [-1]. *)
Lemma adjust_unsolvable (input : RealEstateDeal) (fuel : nat) :
  classify input 1 = crit_bad ->
  classify input 0 = crit_bad ->
  adjustToMaxPurchasePrice (S fuel) input = Some (-1)%Z.
Proof.
  intros H1 H0. unfold adjustToMaxPurchasePrice. cbn [expand].
  rewrite H1. cbn [DealCriteria_eqb].
  change (Z.to_nat (1 + 2)) with 3%nat. cbn [search].
  change ((0 <=? 1)%Z) with true. change ((0 + 1) / 2)%Z with 0%Z.
  cbv iota. rewrite H0. reflexivity.
Qed.

(** C5.  The low-rent deal has no acceptable price: every price [>= 0] is
    'bad'.  [adjustToMaxPurchasePrice] ends on it without failing, but the
    price it leaves is [-1], not 0; that price is 'bad' as well. *)
Theorem adjust_low_rent_deal :
  (forall q : Qc, (0 <= q)%Qc -> classify_at low_rent_deal (Fin q) = crit_bad) /\
  (forall fuel : nat,
      adjustToMaxPurchasePrice (S fuel) low_rent_deal = Some (-1)%Z) /\
  classify low_rent_deal (-1) = crit_bad.
Proof.
  assert (H0 : classify_at low_rent_deal (Fin 0%Qc) = crit_bad)
    by (vm_compute; reflexivity).
  split; [| split].
  - intros q Hq. apply Qcle_lt_or_eq in Hq. destruct Hq as [Hq | <-].
    + exact (low_rent_bad q Hq).
    + exact H0.
  - intros fuel. apply adjust_unsolvable.
    + apply (low_rent_bad (Q2Qc (inject_Z 1))). reflexivity.
    + exact H0.
  - vm_compute. reflexivity.
Qed.

(** ** A series without a rate of return *)

(** A series that never passes the test: [calculateIRR] fails after its
    1000 iterations and [getIRR] answers 0. *)
Example calculateIRR_no_convergence :
  calculateIRR [int 1] = None /\ getIRR_on [int 1] = int 0.
Proof.
  assert (H : calculateIRR [int 1] = None).
  { destruct (calculateIRR [int 1]) eqn:E; [| reflexivity].
    assert (Hc : match calculateIRR [int 1] with Some _ => false | None => true end = true)
      by (vm_compute; reflexivity).
    rewrite E in Hc. discriminate Hc. }
  split; [exact H |]. unfold getIRR_on. rewrite H. reflexivity.
Qed.
(** ** Algebra of [number] *)

Lemma nadd_comm (a b : number) : a + b = b + a.
Proof. destruct a, b; cbn [nadd]; try reflexivity. f_equal. ring. Qed.

Lemma nadd_assoc (a b c : number) : a + (b + c) = a + b + c.
Proof. destruct a, b, c; cbn [nadd]; try reflexivity. f_equal. ring. Qed.

Lemma nadd_0_l (a : number) : int 0 + a = a.
Proof.
  destruct a; cbn [nadd int]; try reflexivity. f_equal.
  change (Q2Qc (inject_Z 0)) with 0%Qc. ring.
Qed.

Lemma nadd_0_r (a : number) : a + int 0 = a.
Proof. rewrite nadd_comm. apply nadd_0_l. Qed.

Lemma sum_from (l : list number) (acc : number) :
  fold_left nadd l acc = acc + sum l.
Proof.
  unfold sum. revert acc. induction l as [| x l IH]; intros acc; cbn [fold_left].
  - symmetry. apply nadd_0_r.
  - rewrite IH, (IH (int 0 + x)), nadd_0_l. symmetry. apply nadd_assoc.
Qed.

Lemma sum_cons (x : number) (l : list number) : sum (x :: l) = x + sum l.
Proof. unfold sum at 1. cbn [fold_left]. rewrite sum_from, nadd_0_l. reflexivity. Qed.

Lemma sum_app (l l' : list number) : sum (l ++ l') = sum l + sum l'.
Proof.
  unfold sum at 1. rewrite fold_left_app, sum_from. reflexivity.
Qed.

(** ** The itemised series of the return service *)

Lemma getPrincipalReductions_loop (this : ReturnCalculationService) (n : nat) :
  forall (k : nat) (l : list number),
    for_range (S k) n (getPrincipalReductions_body this) (l, metrics_after this k) =
    (l ++ map (fun j => principalPaid (metrics_after this j)) (seq (S k) n),
     metrics_after this (k + n)).
Proof.
  induction n as [| n IH]; intros k l.
  - cbn [for_range seq map]. rewrite app_nil_r, Nat.add_0_r. reflexivity.
  - cbn [for_range]. unfold getPrincipalReductions_body at 2.
    change (calculateYearlyMetrics this (S k) (metrics_after this k))
      with (metrics_after this (S k)).
    rewrite IH. cbn [seq map]. rewrite <- app_assoc. cbn [app].
    replace (S k + n)%nat with (k + S n)%nat by lia. reflexivity.
Qed.

Lemma getAppreciations_loop (this : ReturnCalculationService) (n : nat) :
  forall (k : nat) (l : list number),
    for_range (S k) n (getAppreciations_body this) (l, metrics_after this k) =
    (l ++ map (fun j => appreciation (metrics_after this j)) (seq (S k) n),
     metrics_after this (k + n)).
Proof.
  induction n as [| n IH]; intros k l.
  - cbn [for_range seq map]. rewrite app_nil_r, Nat.add_0_r. reflexivity.
  - cbn [for_range]. unfold getAppreciations_body at 2.
    change (calculateYearlyMetrics this (S k) (metrics_after this k))
      with (metrics_after this (S k)).
    rewrite IH. cbn [seq map]. rewrite <- app_assoc. cbn [app].
    replace (S k + n)%nat with (k + S n)%nat by lia. reflexivity.
Qed.

Lemma getPrincipalReductions_series (this : ReturnCalculationService) :
  principalReductions (getPrincipalReductions this) =
    map (fun j => principalPaid (metrics_after this j)) (seq 1 5) /\
  pr_totalPrincipalPaid (getPrincipalReductions this) =
    totalPrincipalPaid (metrics_after this 5).
Proof.
  unfold getPrincipalReductions.
  change (getInitialMetrics this) with (metrics_after this 0).
  rewrite getPrincipalReductions_loop. split; reflexivity.
Qed.

Lemma getAppreciations_series (this : ReturnCalculationService) :
  appreciations (getAppreciations this) =
    map (fun j => appreciation (metrics_after this j)) (seq 1 5) /\
  ap_totalPrincipalPaid (getAppreciations this) =
    totalPrincipalPaid (metrics_after this 5).
Proof.
  unfold getAppreciations.
  change (getInitialMetrics this) with (metrics_after this 0).
  rewrite getAppreciations_loop. split; reflexivity.
Qed.

Lemma getReturns_amounts (this : ReturnCalculationService) :
  amounts (getReturns this) = map (annualReturn_at this) (seq 1 5) /\
  yields (getReturns this) =
    map (fun j => annualReturn_at this j / getInitialInvestment this) (seq 1 5).
Proof.
  unfold getReturns.
  change (getInitialMetrics this) with (metrics_after this 0).
  rewrite getReturns_loop. split; reflexivity.
Qed.

Lemma getCashflows_true (this : ReturnCalculationService) :
  trueCashflows (getCashflows this) =
    map (fun j => cashFlow (metrics_after this j)) (seq 1 5).
Proof.
  unfold getCashflows.
  change (getInitialMetrics this) with (metrics_after this 0).
  rewrite getCashflows_loop. reflexivity.
Qed.

Lemma getCashflows_list (this : ReturnCalculationService) :
  cashflows (getCashflows this) =
    [- getInitialInvestment this;
     cashFlow (metrics_after this 1); cashFlow (metrics_after this 2);
     cashFlow (metrics_after this 3); cashFlow (metrics_after this 4);
     cashFlow (metrics_after this 5)
     + (totalPrincipalPaid (metrics_after this 5)
        + totalAppreciation (metrics_after this 5))].
Proof.
  unfold getCashflows.
  change (getInitialMetrics this) with (metrics_after this 0).
  rewrite getCashflows_loop.
  change INVESTMENT_YEAR_TIME_HORIZON with 5%nat.
  cbn [seq map app Nat.add cashflows].
  exact (add_at_last
           [- getInitialInvestment this;
            cashFlow (metrics_after this 1); cashFlow (metrics_after this 2);
            cashFlow (metrics_after this 3); cashFlow (metrics_after this 4)]
           (cashFlow (metrics_after this 5))
           (totalPrincipalPaid (metrics_after this 5) +
            totalAppreciation (metrics_after this 5))).
Qed.

(** The cumulative fields of the chain are the sums of the yearly ones. *)
Lemma totals_are_sums (this : ReturnCalculationService) (k : nat) :
  totalPrincipalPaid (metrics_after this k) =
    sum (map (fun j => principalPaid (metrics_after this j)) (seq 1 k)) /\
  totalAppreciation (metrics_after this k) =
    sum (map (fun j => appreciation (metrics_after this j)) (seq 1 k)).
Proof.
  induction k as [| k [IHp IHa]].
  - split; reflexivity.
  - rewrite seq_S, !map_app, !sum_app. cbn [map Nat.add].
    rewrite !sum_cons. change (sum []) with (int 0). rewrite !nadd_0_r.
    rewrite <- IHp, <- IHa. split; reflexivity.
Qed.

(** The series of [getReturns] against the three itemised series: all have
    five entries; each year's return is that year's cashflow plus principal
    reduction plus appreciation, added in that order, and each year's yield
    is that return divided by the initial investment; the two averages
    returned are the averages of the two series. *)
Theorem getReturns_components (this : ReturnCalculationService) :
  let cf := trueCashflows (getCashflows this) in
  let pr := principalReductions (getPrincipalReductions this) in
  let ap := appreciations (getAppreciations this) in
  let am := amounts (getReturns this) in
  let ys := yields (getReturns this) in
  (length am = 5 /\ length ys = 5 /\ length cf = 5 /\ length pr = 5 /\ length ap = 5)%nat /\
  (forall i : nat, (i < 5)%nat ->
     nth i am NaN = nth i cf NaN + nth i pr NaN + nth i ap NaN /\
     nth i ys NaN = nth i am NaN / getInitialInvestment this) /\
  avgAmount (getReturns this) = getArrAvg am /\
  avgYield (getReturns this) = getArrAvg ys.
Proof.
  cbv zeta.
  assert (Havg : avgAmount (getReturns this) = getArrAvg (amounts (getReturns this)) /\
                 avgYield (getReturns this) = getArrAvg (yields (getReturns this))).
  { unfold getReturns.
    destruct (for_range 1 INVESTMENT_YEAR_TIME_HORIZON _ _) as [[ys amts] m].
    split; reflexivity. }
  split; [| split; [| exact Havg]];
    rewrite (proj1 (getReturns_amounts this)), (proj2 (getReturns_amounts this)),
      (getCashflows_true this),
      (proj1 (getPrincipalReductions_series this)), (proj1 (getAppreciations_series this)).
  - rewrite !length_map, length_seq. repeat split.
  - intros i Hi.
    do 5 (destruct i as [| i]; [split; reflexivity |]). lia.
Qed.

(** The total of principal paid that [getPrincipalReductions] and
    [getAppreciations] both return is the sum of the five yearly principal
    reductions, and the last entry of the cashflow series is the last yearly
    cashflow plus that total plus the sum of the five yearly
    appreciations. *)
Theorem getPrincipalReductions_total (this : ReturnCalculationService) :
  pr_totalPrincipalPaid (getPrincipalReductions this) =
    sum (principalReductions (getPrincipalReductions this)) /\
  ap_totalPrincipalPaid (getAppreciations this) =
    sum (principalReductions (getPrincipalReductions this)) /\
  nth 5 (cashflows (getCashflows this)) NaN =
    nth 4 (trueCashflows (getCashflows this)) NaN
    + (sum (principalReductions (getPrincipalReductions this))
       + sum (appreciations (getAppreciations this))).
Proof.
  destruct (getPrincipalReductions_series this) as [Hl Ht].
  destruct (getAppreciations_series this) as [Hl' Ht'].
  destruct (totals_are_sums this 5) as [Hp Ha].
  rewrite Hl, Hl', Ht, Ht', <- Hp, <- Ha.
  split; [reflexivity | split; [reflexivity |]].
  rewrite (getCashflows_list this), (getCashflows_true this). reflexivity.
Qed.

(** ** Edge cases of the rate of return *)

Lemma npv_from_NaN (mid : number) (l : list number) :
  forall index, npv_from index mid l NaN = NaN.
Proof. induction l as [| c l IH]; intros index; cbn [npv_from nadd]; auto. Qed.

Lemma npv_from_In_NaN (mid : number) (l : list number) :
  In NaN l -> forall index acc, npv_from index mid l acc = NaN.
Proof.
  induction l as [| c l IH]; intros Hin index acc; [destruct Hin |].
  cbn [npv_from]. destruct Hin as [-> | Hin].
  - cbn [ndiv]. rewrite nadd_NaN_r. apply npv_from_NaN.
  - apply IH. exact Hin.
Qed.

Lemma calculateIRR_In_NaN (cfs : list number) :
  In NaN cfs -> calculateIRR cfs = None.
Proof.
  intros Hin. unfold calculateIRR.
  change (int 0) with (fst (bracket cfs 0)) at 1.
  change (int 1) with (snd (bracket cfs 0)) at 1.
  apply calculateIRR_loop_none. intros j _. unfold converged, npv.
  rewrite (npv_from_In_NaN _ cfs Hin). reflexivity.
Qed.

(** A NaN among the cashflows makes every net present value NaN: no
    midpoint passes the test, [calculateIRR] fails after its 1000 iterations
    and [getIRR] answers 0. *)
Theorem getIRR_NaN_cashflow (cfs : list number) :
  In NaN cfs ->
  (forall mid, npv mid cfs = NaN) /\
  calculateIRR cfs = None /\
  getIRR_on cfs = int 0.
Proof.
  intros Hin.
  assert (Hnpv : forall mid, npv mid cfs = NaN)
    by (intros mid; apply npv_from_In_NaN; exact Hin).
  pose proof (calculateIRR_In_NaN cfs Hin) as Hnone.
  split; [exact Hnpv | split; [exact Hnone |]].
  unfold getIRR_on. rewrite Hnone. reflexivity.
Qed.

Lemma getIRR_NaN_cashflow_witness :
  calculateIRR [int (-1000); NaN; int 1100] = None /\
  getIRR_on [int (-1000); NaN; int 1100] = int 0.
Proof.
  exact (proj2 (getIRR_NaN_cashflow [int (-1000); NaN; int 1100]
                  (or_intror (or_introl eq_refl)))).
Defined.

Lemma npow_nat (b : Qc) (i : nat) : Fin b ** Z.of_nat i = Fin (b ^ i)%Qc.
Proof.
  destruct i as [| i]; [reflexivity |].
  cbn [Z.of_nat npow]. rewrite SuccNat2Pos.id_succ, Qc_pow_Qcpower. reflexivity.
Qed.

Lemma npv_from_zeros (n : nat) :
  forall index,
    npv_from index (dec 1 2) (repeat (int 0) n) (int 0) = int 0.
Proof.
  induction n as [| n IH]; intros index; cbn [repeat npv_from]; [reflexivity |].
  replace (int 1 + dec 1 2) with (Fin (Q2Qc (3 # 2))) by number_eq.
  rewrite npow_nat.
  assert (Hp : (Q2Qc (3 # 2) ^ index)%Qc <> 0%Qc)
    by (apply Qcpower_nonzero; intros E; discriminate E).
  assert (Hz : int 0 / Fin (Q2Qc (3 # 2) ^ index) = int 0).
  { unfold int. rewrite (ndiv_Fin _ Hp). f_equal.
    change (Q2Qc (inject_Z 0)) with 0%Qc. field. exact Hp. }
  rewrite Hz, nadd_0_l. apply IH.
Qed.

(** On a series of zeros, the empty series included, the first midpoint
    passes the test: [calculateIRR] returns 0.5. *)
Theorem calculateIRR_all_zero (n : nat) :
  calculateIRR (repeat (int 0) n) = Some (dec 1 2) /\
  getIRR_on (repeat (int 0) n) = dec 1 2.
Proof.
  assert (H : calculateIRR (repeat (int 0) n) = Some (dec 1 2)).
  { pose proof (calculateIRR_loop_step 999 (repeat (int 0) n) 0) as Hstep.
    unfold converged, midpoint in Hstep. cbn [bracket fst snd] in Hstep.
    replace ((int 0 + int 1) / int 2) with (dec 1 2) in Hstep by number_eq.
    unfold npv in Hstep. rewrite npv_from_zeros in Hstep.
    exact Hstep. }
  split; [exact H |]. unfold getIRR_on. rewrite H. reflexivity.
Qed.

(** ** A payment that is not a number *)

Lemma nle_NaN_r (a : number) : (a <=? NaN) = false.
Proof. destruct a; reflexivity. Qed.

Lemma sum_NaN_head (l : list number) : sum (NaN :: l) = NaN.
Proof. rewrite sum_cons. reflexivity. Qed.

(** With a NaN payment every yearly cashflow is NaN. *)
Lemma cashFlow_NaN (this : ReturnCalculationService) (year : nat) (prev : YearMetrics) :
  getMonthlyMortgagePayment (r_mortgageService this) = NaN ->
  cashFlow (calculateYearlyMetrics this year prev) = NaN.
Proof.
  intros Hpay. unfold calculateYearlyMetrics. cbn [cashFlow].
  unfold getAnnualExpenses. cbn [totalAnnualExpenses e_mortgageService].
  rewrite Hpay. cbn [nmul]. rewrite sum_NaN_head. unfold nsub. cbn [nneg].
  apply nadd_NaN_r.
Qed.

Lemma classify_NaN_payment (d : RealEstateDeal) (p : number) :
  getMonthlyMortgagePayment {| m_deal := d; m_purchasePrice := p |} = NaN ->
  avgCashflow (getCashflows (returnService (initializeServices d p))) = NaN /\
  classify_at d p = crit_bad /\
  getIRR (returnService (initializeServices d p)) = int 0.
Proof.
  intros Hpay.
  set (s := returnService (initializeServices d p)).
  assert (Hcf : forall k, cashFlow (metrics_after s (S k)) = NaN).
  { intros k. cbn [metrics_after]. apply cashFlow_NaN. exact Hpay. }
  assert (Havg : avgCashflow (getCashflows s) = NaN).
  { rewrite getCashflows_avgCashflow.
    change INVESTMENT_YEAR_TIME_HORIZON with 5%nat. cbn [seq map].
    rewrite !Hcf. reflexivity. }
  split; [exact Havg | split].
  - unfold classify_at, checkDealCriteria. fold s. rewrite Havg.
    unfold nge at 2. rewrite nle_NaN_r, andb_false_r. reflexivity.
  - unfold getIRR, getIRR_on. rewrite calculateIRR_In_NaN; [reflexivity |].
    rewrite getCashflows_list, !Hcf. right. left. reflexivity.
Qed.

(** A deal whose interest rate is 0, the default of the deal builder: at
    every purchase price the monthly payment is NaN, the price is 'bad' and
    the rate of return reported is 0; the search for the maximum price ends at
    once and leaves the price [-1]. *)
Theorem zero_rate_rejected (d : RealEstateDeal) :
  annualMortgageInterestRate d = int 0 ->
  (forall p : number,
      getMonthlyMortgagePayment {| m_deal := d; m_purchasePrice := p |} = NaN /\
      classify_at d p = crit_bad /\
      getIRR (returnService (initializeServices d p)) = int 0) /\
  (forall fuel : nat, adjustToMaxPurchasePrice (S fuel) d = Some (-1)%Z).
Proof.
  intros Hrate.
  assert (Hpay : forall p,
             getMonthlyMortgagePayment {| m_deal := d; m_purchasePrice := p |} = NaN).
  { intros p. apply zero_rate_payment. exact Hrate. }
  split.
  - intros p. split; [apply Hpay |].
    destruct (classify_NaN_payment d p (Hpay p)) as (_ & Hbad & Hirr).
    split; assumption.
  - intros fuel. apply adjust_unsolvable; unfold classify;
      apply (classify_NaN_payment d _ (Hpay _)).
Qed.

Lemma zero_rate_rejected_witness :
  classify_at zero_rate_deal (int 372000) = crit_bad /\
  adjustToMaxPurchasePrice 1 zero_rate_deal = Some (-1)%Z.
Proof.
  split.
  - exact (proj1 (proj2 (proj1 (zero_rate_rejected zero_rate_deal eq_refl) (int 372000)))).
  - exact (proj2 (zero_rate_rejected zero_rate_deal eq_refl) 0%nat).
Defined.

(** ** Appreciation *)

Lemma nmul_zero_l_over_zero (a : number) : (int 0 * a) / int 0 = NaN.
Proof. destruct a; reflexivity. Qed.

(** For a property of several units the appreciation divides by the
    monthly rent: at a rent of zero the appreciation of every year from the
    first on is NaN, whatever the price; the year 0 has no appreciation. *)
Theorem calculateAppreciation_zero_rent (this : ReturnCalculationService) (year : nat) :
  (unitCount (r_deal this) >? int 1) = true ->
  monthlyRent (r_deal this) = int 0 ->
  calculateAppreciation this 0 = int 0 /\
  ((1 <= year)%nat -> calculateAppreciation this year = NaN).
Proof.
  intros Hu HR. split; [reflexivity |].
  intros Hy. destruct year as [| k]; [lia |].
  unfold calculateAppreciation. cbn [Nat.ltb Nat.leb]. rewrite Hu, HR.
  set (c := (Q2Qc (inject_Z 1) + Q2Qc (25 # 1000))%Qc).
  change (int 1 + APPRECIATION_RATES.RENT) with (Fin c).
  assert (Hc : c <> 0%Qc) by (intros E; discriminate E).
  assert (Hnew : for_range 1 (S k) (fun (_ : nat) (newRent : number) => newRent * Fin c)
                   (int 0) = int 0).
  { unfold int. rewrite for_range_scale. f_equal.
    change (Q2Qc (inject_Z 0)) with 0%Qc. ring. }
  assert (Hprev : int 0 / Fin c = int 0).
  { unfold int. rewrite (ndiv_Fin _ Hc). f_equal.
    change (Q2Qc (inject_Z 0)) with 0%Qc. field. exact Hc. }
  rewrite Hnew, Hprev, nmul_zero_l_over_zero. reflexivity.
Qed.

Lemma calculateAppreciation_zero_rent_witness :
  let this :=
    returnService
      (initializeServices (with_monthlyRent sample_deal (int 0)) (int 372000)) in
  calculateAppreciation this 3 = NaN.
Proof.
  cbv zeta.
  apply (calculateAppreciation_zero_rent
           (returnService
              (initializeServices (with_monthlyRent sample_deal (int 0)) (int 372000)))
           3); [reflexivity | reflexivity | lia].
Defined.

(** ** Averages *)

Lemma sum_In_NaN (l : list number) : In NaN l -> sum l = NaN.
Proof.
  induction l as [| x l IH]; intros Hin; [destruct Hin |].
  rewrite sum_cons. destruct Hin as [-> | Hin]; [reflexivity |].
  rewrite (IH Hin). destruct x; reflexivity.
Qed.

(** The average of an empty array is [0 / 0], which is NaN, and so is the
    average of an array that holds a NaN anywhere. *)
Theorem getArrAvg_NaN :
  getArrAvg [] = NaN /\
  forall l : list number, In NaN l -> getArrAvg l = NaN.
Proof.
  split; [reflexivity |].
  intros l Hin. unfold getArrAvg. rewrite (sum_In_NaN l Hin). reflexivity.
Qed.

Lemma getArrAvg_NaN_witness : getArrAvg [int 1; NaN; int 4] = NaN.
Proof.
  apply (proj2 getArrAvg_NaN). right. left. reflexivity.
Defined.

(** ** What the search for the maximum price leaves *)

Lemma search_post (input : RealEstateDeal) (n : nat) :
  forall left right : Z,
    (Z.to_nat (right - left + 1) <= n)%nat -> (left <= right + 1)%Z ->
    let r := search n input left right in
    (left - 1 <= r <= right)%Z /\
    (r = right \/ classify input (r + 1) = crit_bad) /\
    (r = (left - 1)%Z \/ classify input r = crit_good \/
     exists m : Z, (left <= m <= r)%Z /\ classify input m = crit_max).
Proof.
  induction n as [| n IH]; intros left right Hn Hlr; cbv zeta.
  - cbn [search]. assert (right = left - 1)%Z by lia. subst right.
    split; [lia | split; [left; reflexivity | left; reflexivity]].
  - cbn [search]. destruct (left <=? right)%Z eqn:E.
    + apply Z.leb_le in E.
      assert (Hmid : (left <= (left + right) / 2 <= right)%Z).
      { split; [apply Z.div_le_lower_bound | apply Z.div_le_upper_bound]; lia. }
      destruct (classify input ((left + right) / 2)) eqn:Hc.
      * split; [lia | split; [left; reflexivity |]].
        right. right. exists ((left + right) / 2)%Z. split; [lia | exact Hc].
      * destruct (IH ((left + right) / 2 + 1)%Z right) as (Hr & Hup & Hlow);
          [lia | lia |].
        split; [lia | split; [exact Hup |]].
        destruct Hlow as [Hlow | [Hlow | (m & Hm & Hmax)]].
        -- right. left. replace (search n input ((left + right) / 2 + 1) right)
             with ((left + right) / 2)%Z by lia. exact Hc.
        -- right. left. exact Hlow.
        -- right. right. exists m. split; [lia | exact Hmax].
      * destruct (IH left ((left + right) / 2 - 1)%Z) as (Hr & Hup & Hlow);
          [lia | lia |].
        split; [lia | split; [| exact Hlow]].
        right. destruct Hup as [Hup | Hup]; [| exact Hup].
        rewrite Hup. replace ((left + right) / 2 - 1 + 1)%Z with ((left + right) / 2)%Z by lia.
        exact Hc.
    + apply Z.leb_gt in E. assert (right = left - 1)%Z by lia. subst right.
      split; [lia | split; [left; reflexivity | left; reflexivity]].
Qed.

Lemma expand_post (input : RealEstateDeal) (fuel : nat) :
  forall p upper : Z,
    (0 < p)%Z -> expand fuel input p = Some upper ->
    (p <= upper)%Z /\ classify input upper = crit_bad.
Proof.
  induction fuel as [| fuel IH]; intros p upper Hp H; [discriminate |].
  cbn [expand] in H.
  destruct (classify input p) eqn:Hc; cbn [DealCriteria_eqb] in H.
  - apply IH in H; [| lia]. split; [lia | apply H].
  - apply IH in H; [| lia]. split; [lia | apply H].
  - injection H as <-. split; [lia | exact Hc].
Qed.

(** Whatever the deal, if [adjustToMaxPurchasePrice] ends, the price it
    leaves is at least [-1]; it is the upper bound found by doubling, which
    is 'bad', or the price just above it is 'bad'; and it is [-1], or it is
    'good', or some price between 0 and it is 'max': on meeting a 'max'
    price the search stops and keeps its current upper end, not that
    price. *)
Theorem adjustToMaxPurchasePrice_post (input : RealEstateDeal) (fuel : nat) (r : Z) :
  adjustToMaxPurchasePrice fuel input = Some r ->
  (-1 <= r)%Z /\
  (classify input r = crit_bad \/ classify input (r + 1) = crit_bad) /\
  (r = (-1)%Z \/ classify input r = crit_good \/
   exists m : Z, (0 <= m <= r)%Z /\ classify input m = crit_max).
Proof.
  unfold adjustToMaxPurchasePrice. intros H.
  destruct (expand fuel input 1) as [upper |] eqn:E; [| discriminate].
  injection H as <-.
  destruct (expand_post input fuel 1 upper) as [Hup Hbad]; [lia | exact E |].
  destruct (search_post input (Z.to_nat (upper + 2)) 0 upper) as (Hr & Hhi & Hlo);
    [lia | lia |].
  split; [lia | split; [| exact Hlo]].
  destruct Hhi as [Hhi | Hhi]; [left; rewrite Hhi; exact Hbad | right; exact Hhi].
Qed.

Lemma adjustToMaxPurchasePrice_post_witness :
  (classify small_deal 215 = crit_bad \/ classify small_deal (215 + 1) = crit_bad) /\
  (215 = (-1) \/ classify small_deal 215 = crit_good \/
   exists m, 0 <= m <= 215 /\ classify small_deal m = crit_max)%Z.
Proof.
  apply (adjustToMaxPurchasePrice_post small_deal 16 215).
  vm_compute. reflexivity.
Defined.

(** The price left can be one that fails the criteria.  On the small deal
    the largest acceptable price is 212, which is 'max'; the search meets
    it while its upper end is 215, stops, and leaves 215, which is 'bad'. *)
Theorem adjustToMaxPurchasePrice_overshoot :
  regular_deal small_deal = true /\
  adjustToMaxPurchasePrice 16 small_deal = Some 215%Z /\
  classify small_deal 215 = crit_bad /\
  classify small_deal 212 = crit_max /\
  (forall z : Z, (212 < z)%Z -> classify small_deal z = crit_bad).
Proof.
  assert (H213 : classify small_deal 213 = crit_bad) by (vm_compute; reflexivity).
  split; [reflexivity | split; [vm_compute; reflexivity | split; [| split]]].
  - apply (classify_up small_deal 213); [reflexivity | lia | exact H213].
  - vm_compute. reflexivity.
  - intros z Hz. apply (classify_up small_deal 213); [reflexivity | lia | exact H213].
Qed.

(** ** Edge cases of the mortgage and expense services *)

(** [getAnnualCapEx] tests [monthlyHoaDues > 0] and [getAnnualInsurance]
    tests whether [monthlyHoaDues] is truthy.  The two agree on positive
    dues (no reserve, flat insurance of 450) and on dues of zero or NaN
    (reserve of 1 per cent and insurance of 0.44 per cent of the price); on
    negative dues the reserve is charged and the insurance is the flat
    450. *)
Theorem hoa_dues_tests (this : ExpenseCalculationService) :
  let hoa := monthlyHoaDues (e_deal this) in
  let price := e_purchasePrice this in
  ((hoa >? int 0) = true ->
   getAnnualCapEx this = int 0 /\ getAnnualInsurance this = int 450) /\
  ((hoa <? int 0) = true ->
   getAnnualCapEx this = price * dec 1 100 /\ getAnnualInsurance this = int 450) /\
  (hoa = int 0 \/ hoa = NaN ->
   getAnnualCapEx this = price * dec 1 100 /\
   getAnnualInsurance this = price * dec 44 10000).
Proof.
  cbv zeta. unfold getAnnualCapEx, getAnnualInsurance.
  destruct (monthlyHoaDues (e_deal this)) as [q | | |] eqn:Eh;
    split; [| split | | split | | split | | split];
    try (intros H; discriminate H); try (intros [H | H]; discriminate H);
    try (intros _; split; reflexivity).
  - intros H. rewrite H. split; [reflexivity |]. cbn [truthy].
    unfold ngt, int in H. apply nlt_Fin in H.
    replace (Qc_is_zero q) with false; [reflexivity |].
    symmetry. apply Qc_is_zero_false. intros ->. discriminate H.
  - intros H. unfold int in H. pose proof H as H'. apply nlt_Fin in H'.
    replace (Fin q >? int 0) with false.
    + split; [reflexivity |]. cbn [truthy].
      replace (Qc_is_zero q) with false; [reflexivity |].
      symmetry. apply Qc_is_zero_false. intros ->. discriminate H'.
    + symmetry. unfold ngt, int. destruct (Fin _ <? Fin q) eqn:E; [| reflexivity].
      apply nlt_Fin in E. exfalso. qc_to_q. lra.
  - intros [H | H]; [| discriminate H]. injection H as ->. split; reflexivity.
Qed.

Lemma hoa_dues_tests_witness :
  let this :=
    {| e_deal := sample_deal; e_purchasePrice := int 372000;
       e_mortgageService := {| m_deal := sample_deal; m_purchasePrice := int 372000 |} |} in
  getAnnualCapEx this = int 372000 * dec 1 100 /\
  getAnnualInsurance this = int 372000 * dec 44 10000.
Proof.
  cbv zeta.
  apply (proj2 (proj2 (hoa_dues_tests
                         {| e_deal := sample_deal; e_purchasePrice := int 372000;
                            e_mortgageService :=
                              {| m_deal := sample_deal;
                                 m_purchasePrice := int 372000 |} |}))).
  left. reflexivity.
Defined.



(** ** The deal builder *)

Lemma deref_alloc (s : Store) (d : RealEstateDeal) :
  deref (fst (alloc s d)) (snd (alloc s d)) = Some d /\
  forall r d', deref s r = Some d' -> deref (fst (alloc s d)) r = Some d'.
Proof.
  unfold alloc, deref. cbn [fst snd]. split.
  - rewrite nth_error_app2 by lia. rewrite Nat.sub_diag. reflexivity.
  - intros r d' H. rewrite nth_error_app1; [exact H |].
    apply nth_error_Some. congruence.
Qed.

Lemma deref_assign (s : Store) (f : RealEstateDeal -> RealEstateDeal) :
  forall r r' : nat,
    deref (assign s r f) r' =
    if Nat.eqb r' r then option_map f (deref s r) else deref s r'.
Proof.
  unfold deref. induction s as [| d s IH]; intros r r'.
  - cbn [assign]. destruct r, r'; cbn [nth_error Nat.eqb option_map]; try reflexivity.
    destruct (Nat.eqb r' r); reflexivity.
  - destruct r as [| r], r' as [| r']; cbn [assign nth_error Nat.eqb option_map];
      try reflexivity.
    apply IH.
Qed.

Lemma length_assign (s : Store) (f : RealEstateDeal -> RealEstateDeal) :
  forall r, length (assign s r f) = length s.
Proof.
  induction s as [| d s IH]; intros r; destruct r; cbn [assign length]; auto.
Qed.

Lemma deref_lt (s : Store) (r : nat) (d : RealEstateDeal) :
  deref s r = Some d -> (r < length s)%nat.
Proof. unfold deref. intros H. apply nth_error_Some. congruence. Qed.

(** One call, on a builder whose deal object is [d]. *)
Lemma call_spec (c : Call) (s : Store) (this : RealEstateDealBuilder) (d : RealEstateDeal) :
  deref s (b_deal this) = Some d ->
  deref (fst (call c s this)) (b_deal (snd (call c s this))) = Some (effect c d) /\
  (is_setDeal c = false ->
   snd (call c s this) = this /\
   length (fst (call c s this)) = length s /\
   forall r, r <> b_deal this -> deref (fst (call c s this)) r = deref s r) /\
  (is_setDeal c = true ->
   b_deal (snd (call c s this)) = length s /\
   forall r d', deref s r = Some d' -> deref (fst (call c s this)) r = Some d').
Proof.
  intros Hd.
  destruct c; cbn [call effect is_setDeal];
    try (unfold setSalePrice, setDownpaymentPercentage, setAnnualMortgageInterestRate,
           setMortgageAmortization, setPropertyTaxRate, setMonthlyHoaDues, setVacancyRate,
           setMonthlyRent, setLandlordPaidUtilities, setNeedsPropertyManagement,
           setUnitCount, setNewConstruction, setClosingEquity;
         cbn [fst snd];
         split; [rewrite deref_assign, Nat.eqb_refl, Hd; reflexivity |];
         split; [| discriminate];
         intros _; split; [reflexivity | split; [apply length_assign |]];
         intros r Hr; rewrite deref_assign;
         apply Nat.eqb_neq in Hr; rewrite Hr; reflexivity).
  unfold setDeal. rewrite Hd.
  destruct (deref_alloc s (spread d partialDeal)) as [Hnew Hold].
  change (let '(s', r) := alloc s (spread d partialDeal) in (s', {| b_deal := r |}))
    with (fst (alloc s (spread d partialDeal)),
          {| b_deal := snd (alloc s (spread d partialDeal)) |}).
  cbn [fst snd b_deal].
  split; [exact Hnew | split; [discriminate |]].
  intros _. split; [reflexivity | exact Hold].
Qed.

Lemma chain_spec (cs : list Call) :
  forall (s : Store) (this : RealEstateDealBuilder) (d : RealEstateDeal),
    deref s (b_deal this) = Some d ->
    deref (fst (chain cs (s, this))) (b_deal (snd (chain cs (s, this)))) =
    Some (fold_left (fun d c => effect c d) cs d).
Proof.
  induction cs as [| c cs IH]; intros s this d Hd; [exact Hd |].
  unfold chain. cbn [fold_left fst snd].
  destruct (call c s this) as [s' this'] eqn:E.
  apply (IH s' this' (effect c d)).
  pose proof (proj1 (call_spec c s this d Hd)) as H. rewrite E in H. exact H.
Qed.

(** A chain changes no object but the builder's own ones; a chain of
    setters keeps the builder's object and the size of the store. *)
Lemma chain_frame (cs : list Call) :
  forall (s : Store) (this : RealEstateDealBuilder) (d : RealEstateDeal),
    deref s (b_deal this) = Some d ->
    (forall r d', r <> b_deal this -> deref s r = Some d' ->
                  deref (fst (chain cs (s, this))) r = Some d') /\
    (forallb (fun c => negb (is_setDeal c)) cs = true ->
     snd (chain cs (s, this)) = this /\ length (fst (chain cs (s, this))) = length s).
Proof.
  induction cs as [| c cs IH]; intros s this d Hd.
  - split; [intros r d' _ H; exact H | intros _; split; reflexivity].
  - unfold chain. cbn [fold_left fst snd].
    destruct (call_spec c s this d Hd) as (Hnew & Hset & Hdeal).
    destruct (call c s this) as [s1 this1] eqn:E. cbn [fst snd] in *.
    destruct (IH s1 this1 (effect c d) Hnew) as (Hkeep & Hsetters).
    fold (chain cs (s1, this1)).
    split.
    + intros r d' Hr Hd'.
      pose proof (deref_lt s r d' Hd') as Hlt.
      destruct (is_setDeal c) eqn:Hc.
      * destruct (Hdeal eq_refl) as (Href & Hold).
        apply Hkeep; [rewrite Href; lia | apply Hold; exact Hd'].
      * destruct (Hset eq_refl) as (-> & _ & Hother).
        apply Hkeep; [exact Hr | rewrite (Hother r Hr); exact Hd'].
    + cbn [forallb]. intros Hcs. apply andb_true_iff in Hcs. destruct Hcs as [Hc Hcs].
      apply negb_true_iff in Hc. destruct (Hset Hc) as (-> & Hlen & _).
      destruct (Hsetters Hcs) as [-> ->]. split; [reflexivity | exact Hlen].
Qed.

Lemma new_builder_spec (s : Store) :
  deref (fst (new_RealEstateDealBuilder s)) (b_deal (snd (new_RealEstateDealBuilder s))) =
  Some default_deal /\
  b_deal (snd (new_RealEstateDealBuilder s)) = length s /\
  length (fst (new_RealEstateDealBuilder s)) = S (length s) /\
  forall r d, deref s r = Some d -> deref (fst (new_RealEstateDealBuilder s)) r = Some d.
Proof.
  unfold new_RealEstateDealBuilder.
  change (let '(s', r) := alloc s default_deal in (s', {| b_deal := r |}))
    with (fst (alloc s default_deal), {| b_deal := snd (alloc s default_deal) |}).
  cbn [fst snd b_deal].
  split; [exact (proj1 (deref_alloc s default_deal)) | split; [reflexivity | split]].
  - unfold alloc. cbn [fst]. rewrite length_app. cbn [length]. lia.
  - apply (proj2 (deref_alloc s default_deal)).
Qed.

Lemma built_deal (s : Store) (cs : list Call) :
  deref (fst (chain cs (new_RealEstateDealBuilder s)))
    (build (snd (chain cs (new_RealEstateDealBuilder s)))) =
  Some (fold_left (fun d c => effect c d) cs default_deal).
Proof.
  destruct (new_builder_spec s) as (H0 & _).
  destruct (new_RealEstateDealBuilder s) as [s0 b0]. cbn [fst snd] in H0.
  exact (chain_spec cs s0 b0 default_deal H0).
Qed.

(** The deal built after a chain of calls on a new builder holds, field by
    field, what the calls made of the defaults, in their order: each setter
    changes its field and [setDeal] the keys of its argument.  The objects
    that were in the store before are left as they are, and a chain of
    setters allocates nothing beyond the builder's first object. *)
Theorem build_after_chain (s : Store) (cs : list Call) :
  let s' := fst (chain cs (new_RealEstateDealBuilder s)) in
  let this := snd (chain cs (new_RealEstateDealBuilder s)) in
  deref s' (build this) = Some (fold_left (fun d c => effect c d) cs default_deal) /\
  (forall r d, deref s r = Some d -> deref s' r = Some d) /\
  (forallb (fun c => negb (is_setDeal c)) cs = true ->
   build this = length s /\ length s' = S (length s)).
Proof.
  cbv zeta. split; [apply built_deal |].
  destruct (new_builder_spec s) as (H0 & Hb0 & Hlen0 & Hold0).
  destruct (new_RealEstateDealBuilder s) as [s0 b0]. cbn [fst snd] in *.
  destruct (chain_frame cs s0 b0 default_deal H0) as (Hkeep & Hsetters).
  split.
  - intros r d Hd. apply Hkeep; [| apply Hold0; exact Hd].
    pose proof (deref_lt s r d Hd) as Hlt. lia.
  - intros Hcs. destruct (Hsetters Hcs) as [-> ->]. unfold build.
    split; [exact Hb0 | exact Hlen0].
Qed.

Lemma build_after_chain_witness :
  let cs := [call_setSalePrice (int 372000); call_setMonthlyRent (int 4400)] in
  build (snd (chain cs (new_RealEstateDealBuilder []))) = 0%nat /\
  length (fst (chain cs (new_RealEstateDealBuilder []))) = 1%nat.
Proof.
  exact (proj2 (proj2 (build_after_chain []
                         [call_setSalePrice (int 372000); call_setMonthlyRent (int 4400)]))
           eq_refl).
Defined.

(** [build] hands out the builder's own object.  A setter called after
    [build] changes the deal that was built; [setDeal] does not: it leaves
    the deal that was built as it is and gives the builder a new object. *)
Theorem build_shares_the_deal (s : Store) (this : RealEstateDealBuilder)
    (d : RealEstateDeal) (c : Call) :
  deref s (b_deal this) = Some d ->
  let built := build this in
  let s' := fst (call c s this) in
  let this' := snd (call c s this) in
  (is_setDeal c = false ->
   build this' = built /\ deref s' built = Some (effect c d)) /\
  (is_setDeal c = true ->
   build this' <> built /\ deref s' built = Some d /\
   deref s' (build this') = Some (effect c d)).
Proof.
  intros Hd. cbv zeta. unfold build.
  destruct (call_spec c s this d Hd) as (Hnew & Hset & Hdeal).
  split.
  - intros Hc. destruct (Hset Hc) as (E & _ & _). rewrite E in Hnew.
    split; [rewrite E; reflexivity | exact Hnew].
  - intros Hc. destruct (Hdeal Hc) as (Href & Hold).
    split; [| split; [exact (Hold _ _ Hd) | exact Hnew]].
    rewrite Href. pose proof (deref_lt s _ d Hd) as Hlt. lia.
Qed.

Lemma build_shares_the_deal_witness :
  let s := fst (new_RealEstateDealBuilder []) in
  let this := snd (new_RealEstateDealBuilder []) in
  build (snd (call (call_setSalePrice (int 372000)) s this)) = build this /\
  deref (fst (call (call_setSalePrice (int 372000)) s this)) (build this) =
  Some (with_salePrice default_deal (int 372000)).
Proof.
  exact (proj1 (build_shares_the_deal
                  (fst (new_RealEstateDealBuilder []))
                  (snd (new_RealEstateDealBuilder []))
                  default_deal (call_setSalePrice (int 372000)) eq_refl) eq_refl).
Defined.

Lemma rate_after_chain (cs : list Call) :
  forallb (fun c => negb (sets_rate c)) cs = true ->
  forall d : RealEstateDeal,
    annualMortgageInterestRate (fold_left (fun d c => effect c d) cs d) =
    annualMortgageInterestRate d.
Proof.
  induction cs as [| c cs IH]; intros Hcs d; [reflexivity |].
  cbn [forallb] in Hcs. apply andb_true_iff in Hcs. destruct Hcs as [Hc Hcs].
  cbn [fold_left]. rewrite (IH Hcs).
  destruct c; try reflexivity; try discriminate Hc.
  cbn [sets_rate] in Hc. cbn [effect spread annualMortgageInterestRate].
  destruct (p_annualMortgageInterestRate partialDeal); [discriminate Hc | reflexivity].
Qed.

(** A deal built by a chain of calls that never gives the interest rate a
    value keeps the default rate of 0: its monthly payment is NaN and it is
    'bad' at every purchase price. *)
Theorem build_without_rate (s : Store) (cs : list Call) :
  forallb (fun c => negb (sets_rate c)) cs = true ->
  exists d : RealEstateDeal,
    deref (fst (chain cs (new_RealEstateDealBuilder s)))
      (build (snd (chain cs (new_RealEstateDealBuilder s)))) = Some d /\
    annualMortgageInterestRate d = int 0 /\
    forall p : number,
      getMonthlyMortgagePayment {| m_deal := d; m_purchasePrice := p |} = NaN /\
      classify_at d p = crit_bad.
Proof.
  intros Hcs.
  exists (fold_left (fun d c => effect c d) cs default_deal).
  split; [apply built_deal |].
  assert (Hrate : annualMortgageInterestRate
                    (fold_left (fun d c => effect c d) cs default_deal) = int 0)
    by (rewrite (rate_after_chain cs Hcs); reflexivity).
  split; [exact Hrate |].
  intros p.
  assert (Hpay : getMonthlyMortgagePayment
                   {| m_deal := fold_left (fun d c => effect c d) cs default_deal;
                      m_purchasePrice := p |} = NaN)
    by (apply zero_rate_payment; exact Hrate).
  split; [exact Hpay |].
  exact (proj1 (proj2 (classify_NaN_payment _ p Hpay))).
Qed.

Lemma build_without_rate_witness :
  exists d : RealEstateDeal,
    deref
      (fst (chain [call_setSalePrice (int 372000); call_setMonthlyRent (int 4400)]
              (new_RealEstateDealBuilder [])))
      (build
         (snd (chain [call_setSalePrice (int 372000); call_setMonthlyRent (int 4400)]
                 (new_RealEstateDealBuilder [])))) = Some d /\
    annualMortgageInterestRate d = int 0 /\
    forall p : number,
      getMonthlyMortgagePayment {| m_deal := d; m_purchasePrice := p |} = NaN /\
      classify_at d p = crit_bad.
Proof.
  exact (build_without_rate []
           [call_setSalePrice (int 372000); call_setMonthlyRent (int 4400)] eq_refl).
Defined.

(** ** The titles of the report *)

Lemma str_eqb_eq (a b : str) : str_eqb a b = true <-> a = b.
Proof.
  revert b. induction a as [| x a IH]; intros [| y b]; cbn [str_eqb];
    try (split; [discriminate | discriminate]); [split; reflexivity |].
  rewrite andb_true_iff, Ascii.eqb_eq, IH. split.
  - intros [-> ->]. reflexivity.
  - intros [= -> ->]. split; reflexivity.
Qed.

Lemma toUpperCase_char_not_lower (c : ascii) : is_lower (toUpperCase_char c) = false.
Proof. destruct c as [[] [] [] [] [] [] [] []]; reflexivity. Qed.

Lemma toUpperCase_not_lower (w : str) :
  Forall (fun c => is_lower c = false) (toUpperCase w).
Proof.
  induction w as [| c w IH]; cbn [toUpperCase map]; constructor.
  - apply toUpperCase_char_not_lower.
  - exact IH.
Qed.

(** A word in upper case is not a string that has a lower-case letter. *)
Lemma upper_case_differs (w a : str) :
  existsb is_lower a = true -> str_eqb (toUpperCase w) a = false.
Proof.
  intros Ha. destruct (str_eqb (toUpperCase w) a) eqn:E; [| reflexivity].
  apply str_eqb_eq in E. subst a. exfalso.
  apply existsb_exists in Ha. destruct Ha as (c & Hin & Hc).
  pose proof (toUpperCase_not_lower w) as Hup.
  rewrite Forall_forall in Hup. rewrite (Hup c Hin) in Hc. discriminate Hc.
Qed.

(** No word in upper case is ['CoC'] or ['CapEx']. *)
Lemma has_acronyms_upper (w : str) :
  has acronyms (toUpperCase w) =
  has (map list_ascii_of_string ["ROI"; "PMI"; "HOA"]%string) (toUpperCase w).
Proof.
  unfold has, acronyms. cbn [map existsb].
  rewrite (upper_case_differs w (list_ascii_of_string "CoC")) by reflexivity.
  rewrite (upper_case_differs w (list_ascii_of_string "CapEx")) by reflexivity.
  cbn [orb]. reflexivity.
Qed.

Lemma replace_words_ext (f g : str -> str) :
  (forall w, f w = g w) ->
  forall s word, replace_words f word s = replace_words g word s.
Proof.
  intros Hfg. induction s as [| c s IH]; intros word; cbn [replace_words].
  - destruct word; [reflexivity | apply Hfg].
  - destruct (is_word c); [apply IH |].
    rewrite IH. destruct word; [reflexivity | rewrite Hfg; reflexivity].
Qed.

(** The acronyms ['CoC'] and ['CapEx'] of the service never apply: the
    test compares them with a word put in upper case.  Titles are the same as
    with ['ROI'], ['PMI'] and ['HOA'] alone; so the key [annualCapEx] reads
    "Annual Cap Ex", while [annualHoaDues] reads "Annual HOA Dues". *)
Theorem acronyms_CoC_CapEx_never_apply :
  (forall s : str,
      titleCase acronyms s =
      titleCase (map list_ascii_of_string ["ROI"; "PMI"; "HOA"]%string) s) /\
  titleCase acronyms (list_ascii_of_string "annualCapEx") =
    list_ascii_of_string "Annual Cap Ex" /\
  titleCase acronyms (list_ascii_of_string "annualHoaDues") =
    list_ascii_of_string "Annual HOA Dues" /\
  titleCase acronyms (list_ascii_of_string "annualROIs") =
    list_ascii_of_string "Annual R O Is".
Proof.
  split; [| repeat split; vm_compute; reflexivity].
  intros s. unfold titleCase. f_equal. apply replace_words_ext.
  intros w. rewrite has_acronyms_upper. reflexivity.
Qed.

(** What [formatTitle] answers for a key, the cache apart. *)
Lemma formatTitle_step (this : FormattingService) (k : str) :
  cache_ok this ->
  fst (formatTitle this k) =
    (if formatTitleCase this then titleCase acronyms k else k) /\
  formatTitleCase (snd (formatTitle this k)) = formatTitleCase this /\
  cache_ok (snd (formatTitle this k)).
Proof.
  unfold cache_ok, formatTitle. intros Hok.
  destruct (formatTitleCase this) eqn:Hflag; cbn [negb].
  - assert (Hnew : forall k' v,
               cache_get (cache_set (titleCaseMap this) k (titleCase acronyms k)) k'
               = Some v -> v = titleCase acronyms k').
    { cbn [cache_set cache_get]. intros k' v.
      destruct (str_eqb k' k) eqn:E.
      - apply str_eqb_eq in E. subst k'. intros [= <-]. reflexivity.
      - apply Hok. }
    destruct (cache_get (titleCaseMap this) k) as [[| c cached] |] eqn:Hget;
      cbn [fst snd formatTitleCase titleCaseMap].
    + split; [reflexivity | split; [reflexivity | exact Hnew]].
    + rewrite Hflag. split; [exact (Hok k _ Hget) | split; [reflexivity | exact Hok]].
    + split; [reflexivity | split; [reflexivity | exact Hnew]].
  - rewrite Hok. cbn [cache_get fst snd]. rewrite Hflag.
    split; [reflexivity | split; [reflexivity | exact Hok]].
Qed.

Lemma formatTitles_spec (keys : list str) :
  forall this : FormattingService,
    cache_ok this ->
    fst (formatTitles this keys) =
    map (fun k => if formatTitleCase this then titleCase acronyms k else k) keys.
Proof.
  induction keys as [| k keys IH]; intros this Hok; [reflexivity |].
  cbn [formatTitles map].
  destruct (formatTitle_step this k Hok) as (Hfst & Hflag & Hok').
  destruct (formatTitle this k) as [title this']. cbn [fst snd] in *.
  specialize (IH this' Hok'). rewrite Hflag in IH.
  destruct (formatTitles this' keys) as [titles this'']. cbn [fst] in *.
  rewrite Hfst, IH. reflexivity.
Qed.

(** The cache of titles cannot be observed: on a new service, successive
    calls of [formatTitle] answer, key by key, the title the chain of
    replacements gives, or the key itself when [formatTitleCase] is false,
    whatever was asked before and however often. *)
Theorem formatTitle_cache_transparent (config : option bool) (keys : list str) :
  fst (formatTitles (new_FormattingService config) keys) =
  map (fun k => if or_else config true then titleCase acronyms k else k) keys.
Proof.
  rewrite formatTitles_spec; [reflexivity |].
  unfold cache_ok, new_FormattingService. cbn [formatTitleCase titleCaseMap].
  destruct (or_else config true); [| reflexivity].
  intros k v H. discriminate H.
Qed.

(** ** The analyser and its report *)

Lemma nmul_comm (a b : number) : a * b = b * a.
Proof. destruct a, b; cbn [nmul]; try reflexivity. f_equal. ring. Qed.

Lemma reachable_services (input : RealEstateDeal) (this : RealEstateDealAnalyser) :
  reachable input this ->
  a_input this = input /\
  a_services this = initializeServices input (a_purchasePrice this).
Proof.
  induction 1 as [| fuel this this' _ [IHi IHs] Hadj | this _ [IHi IHs]].
  - split; reflexivity.
  - unfold adjust in Hadj. rewrite IHi in Hadj.
    destruct (adjustToMaxPurchasePrice fuel input); [| discriminate].
    injection Hadj as <-. split; reflexivity.
  - unfold resetPurchasePriceAdjustment. rewrite IHi. split; reflexivity.
Qed.

(** In every state of the analyser the input is the one it was built
    with and the three services are those of the current purchase price.
    [resetPurchasePriceAdjustment] gives back the state of construction, and
    then the report is not titled as adjusted unless the sale price is NaN;
    after [adjustToMaxPurchasePrice] the report is titled as adjusted exactly
    when the price left differs from the sale price. *)
Theorem analyser_states (input : RealEstateDeal) (this : RealEstateDealAnalyser) :
  reachable input this ->
  a_input this = input /\
  a_services this = initializeServices input (a_purchasePrice this) /\
  resetPurchasePriceAdjustment this = new_RealEstateDealAnalyser input /\
  (isPurchasePriceAdjusted (resetPurchasePriceAdjustment this) = true <->
   salePrice input = NaN) /\
  (forall fuel this',
      adjust fuel this = Some this' ->
      exists price : Z,
        adjustToMaxPurchasePrice fuel input = Some price /\
        a_purchasePrice this' = int price /\
        isPurchasePriceAdjusted this' = negb (int price === salePrice input)).
Proof.
  intros Hreach. destruct (reachable_services input this Hreach) as [Hi Hs].
  split; [exact Hi | split; [exact Hs | split; [| split]]].
  - unfold resetPurchasePriceAdjustment, new_RealEstateDealAnalyser. rewrite Hi.
    reflexivity.
  - unfold isPurchasePriceAdjusted, resetPurchasePriceAdjustment.
    cbn [a_purchasePrice a_input]. rewrite Hi.
    destruct (salePrice input) as [q | | |]; cbn [nseq negb];
      try (split; [discriminate | discriminate]); [| split; reflexivity].
    replace (Qc_eq_bool q q) with true; [split; discriminate |].
    symmetry. unfold Qc_eq_bool. destruct (Qc_eq_dec q q); congruence.
  - intros fuel this' Hadj. unfold adjust in Hadj. rewrite Hi in Hadj.
    destruct (adjustToMaxPurchasePrice fuel input) as [price |]; [| discriminate].
    injection Hadj as <-. exists price.
    split; [reflexivity | split; reflexivity].
Qed.

Lemma analyser_states_witness :
  resetPurchasePriceAdjustment (new_RealEstateDealAnalyser sample_deal) =
  new_RealEstateDealAnalyser sample_deal.
Proof.
  exact (proj1 (proj2 (proj2 (analyser_states sample_deal _
                                (reachable_new sample_deal))))).
Defined.

(** The numbers of the report agree with one another, in every state of
    the analyser: the initial investment is the sum of its two lines, the
    annual expenses are the sum of their nine lines, and the cash-on-cash
    return is the cashflow line over the sum of the two others. *)
Theorem report_sections_agree (input : RealEstateDeal) (this : RealEstateDealAnalyser) :
  reachable input this ->
  value_of this 0 = sum (data_of this 0) /\
  value_of this 1 = sum (data_of this 1) /\
  value_of this 3 =
    nth 0 (data_of this 3) NaN / (nth 1 (data_of this 3) NaN + nth 2 (data_of this 3) NaN).
Proof.
  intros Hreach. destruct (reachable_services input this Hreach) as [Hi Hs].
  unfold value_of, data_of, report_sections.
  cbn [nth section_value section_data map snd].
  rewrite Hs.
  cbn [returnService expenseService mortgageService initializeServices].
  set (p := a_purchasePrice this).
  set (ms := {| m_deal := input; m_purchasePrice := p |}).
  set (es := {| e_deal := input; e_purchasePrice := p; e_mortgageService := ms |}).
  set (rs := {| r_deal := input; r_purchasePrice := p;
                r_mortgageService := ms; r_expenseService := es |}).
  split; [| split].
  - unfold getInitialInvestment. cbn [r_expenseService r_mortgageService rs].
    rewrite !sum_cons. change (sum []) with (int 0). rewrite nadd_0_r.
    apply nadd_comm.
  - reflexivity.
  - unfold getAvgCOCROI, getInitialInvestment, getClosingCosts.
    cbn [r_expenseService r_mortgageService rs e_purchasePrice es].
    rewrite (nadd_comm (getDownPayment ms)), (nmul_comm p). reflexivity.
Qed.

Lemma report_sections_agree_witness :
  let this := new_RealEstateDealAnalyser sample_deal in
  value_of this 0 = sum (data_of this 0) /\ value_of this 1 = sum (data_of this 1).
Proof.
  cbv zeta.
  pose proof (report_sections_agree sample_deal _ (reachable_new sample_deal)) as H.
  split; [exact (proj1 H) | exact (proj1 (proj2 H))].
Defined.
